(** * acl-arduino: the Arduino CLI client, the diagnostic mapper and the
      explorer tree items

    A shallow embedding of

    - [src/server/src/arduino-cli.ts]        (module [ArduinoCli]),
    - [src/server/src/arduino-diagnostic.ts] (module [ArduinoDiagnostic]),
    - [src/client/src/explorer/arduino-item.ts] (module [Explorer]),

    followed by the properties proved about them.

    Conventions.  A JavaScript value that may be [undefined] is an [option];
    a call that may throw returns a [completion].  The file system, the
    result cache and the subprocesses started with [spawnSync] live in an
    explicit [World] threaded through every operation.  Calls to the logger
    only write to an output channel; they do not change any value modelled
    here and are left out. *)

From Stdlib Require Import Ascii String NArith Bool.
From stdpp Require Import base option list strings gmap.

Local Open Scope string_scope.
Local Close Scope list_scope.
Local Open Scope list_scope.
Set Warnings "-register-all".

(** The double quote, which a string literal cannot hold. *)
Definition dquote : string := String "034"%char "".

(** ** The JavaScript run time: JSON values and [JSON.parse] *)

Module JSON.

(** A number keeps the literal it was read from. *)
Inductive value : Type :=
| Null
| Bool (b : bool)
| Number (literal : string)
| Str (s : string)
| Array (items : list value)
| Object (members : list (string * value)).

Definition is_ws (c : ascii) : bool :=
  match c with
  | " "%char | "009"%char | "010"%char | "013"%char => true
  | _ => false
  end.

Definition is_digit (c : ascii) : bool :=
  let n := N_of_ascii c in ((48 <=? n) && (n <=? 57))%N.

Definition hex_digit (c : ascii) : option N :=
  let n := N_of_ascii c in
  if ((48 <=? n) && (n <=? 57))%N then Some (n - 48)%N
  else if ((65 <=? n) && (n <=? 70))%N then Some (n - 55)%N
  else if ((97 <=? n) && (n <=? 102))%N then Some (n - 87)%N
  else None.

Fixpoint skip_ws (s : string) : string :=
  match s with
  | String c r => if is_ws c then skip_ws r else s
  | EmptyString => s
  end.

(** The longest prefix of decimal digits, and what follows it. *)
Fixpoint take_digits (s : string) : string * string :=
  match s with
  | String c r =>
      if is_digit c
      then let '(ds, rest) := take_digits r in (String c ds, rest)
      else ("", s)
  | EmptyString => ("", "")
  end.

(** An optional minus sign, then a single zero or a digit string that
    does not start with zero. *)
Definition scan_int (s : string) : option (string * string) :=
  let '(sign, s1) :=
    match s with
    | String c r => if Ascii.eqb c "-" then ("-", r) else ("", s)
    | EmptyString => ("", s)
    end in
  match s1 with
  | String c r =>
      if Ascii.eqb c "0" then Some (sign +:+ "0", r)
      else if is_digit c
      then let '(ds, rest) := take_digits r in Some (sign +:+ String c ds, rest)
      else None
  | EmptyString => None
  end.

(** At least one digit, written after [mark]. *)
Definition scan_digits (mark : string) (s : string) : option (string * string) :=
  match take_digits s with
  | (EmptyString, _) => None
  | (ds, rest) => Some (mark +:+ ds, rest)
  end.

(** An optional fraction: a dot and at least one digit. *)
Definition scan_frac (s : string) : option (string * string) :=
  match s with
  | String c r => if Ascii.eqb c "." then scan_digits "." r else Some ("", s)
  | EmptyString => Some ("", s)
  end.

(** An optional exponent: e or E, an optional sign, at least one digit. *)
Definition scan_exp (s : string) : option (string * string) :=
  match s with
  | String c r =>
      if Ascii.eqb c "e" || Ascii.eqb c "E" then
        match r with
        | String sign r' =>
            if Ascii.eqb sign "+" || Ascii.eqb sign "-"
            then scan_digits (String c (String sign "")) r'
            else scan_digits (String c "") r
        | EmptyString => None
        end
      else Some ("", s)
  | EmptyString => Some ("", s)
  end.

Definition scan_number (s : string) : option (string * string) :=
  '(i, s1) ← scan_int s;
  '(f, s2) ← scan_frac s1;
  '(e, s3) ← scan_exp s2;
  Some (i +:+ f +:+ e, s3).

(** A [\uXXXX] escape denotes a UTF-16 code unit; strings are kept here
    as UTF-8 bytes, so the unit is written out in UTF-8. *)
Definition utf8 (n : N) : string :=
  let byte (k : N) := String (ascii_of_N k) "" in
  if (n <? 128)%N then byte n
  else if (n <? 2048)%N then byte (192 + n / 64)%N +:+ byte (128 + n mod 64)%N
  else byte (224 + n / 4096)%N +:+ byte (128 + (n / 64) mod 64)%N
         +:+ byte (128 + n mod 64)%N.

(** The character an escape letter stands for. *)
Definition unescape (e : ascii) : option ascii :=
  match e with
  | "034"%char => Some "034"%char
  | "\"%char => Some "\"%char
  | "/"%char => Some "/"%char
  | "b"%char => Some "008"%char
  | "f"%char => Some "012"%char
  | "n"%char => Some "010"%char
  | "r"%char => Some "013"%char
  | "t"%char => Some "009"%char
  | _ => None
  end.

(** The body of a string literal, after its opening quote. *)
Fixpoint scan_string (s : string) : option (string * string) :=
  match s with
  | EmptyString => None
  | String c r =>
      if Ascii.eqb c "034" then Some ("", r)
      else if Ascii.eqb c "\" then
        match r with
        | EmptyString => None
        | String e r' =>
            if Ascii.eqb e "u" then
              match r' with
              | String h1 (String h2 (String h3 (String h4 r''))) =>
                  a ← hex_digit h1; b ← hex_digit h2;
                  c ← hex_digit h3; d ← hex_digit h4;
                  '(t, rest) ← scan_string r'';
                  Some (utf8 (((a * 16 + b) * 16 + c) * 16 + d)%N +:+ t, rest)
              | _ => None
              end
            else
              c ← unescape e;
              '(t, rest) ← scan_string r';
              Some (String c t, rest)
        end
      else if (N_of_ascii c <? 32)%N then None
      else '(t, rest) ← scan_string r; Some (String c t, rest)
  end.

(** [s] without its prefix [p], when it starts with [p]. *)
Fixpoint strip_prefix (p s : string) : option string :=
  match p, s with
  | EmptyString, _ => Some s
  | String a p', String b s' => if Ascii.eqb a b then strip_prefix p' s' else None
  | String _ _, EmptyString => None
  end.

(** Recursive descent over the grammar of ECMA-404.  One step of each of
    the three parsers, with the calls it makes to the others left open:
    a value, the elements of an array after a bracket or a comma, and
    the members of an object after a brace or a comma. *)
Definition value_step
  (elements : string -> list value -> option (value * string))
  (members : string -> list (string * value) -> option (value * string))
  (s : string) : option (value * string) :=
  match skip_ws s with
  | EmptyString => None
  | String c r =>
      if Ascii.eqb c "{" then
        match strip_prefix "}" (skip_ws r) with
        | Some r' => Some (Object [], r')
        | None => members r []
        end
      else if Ascii.eqb c "[" then
        match strip_prefix "]" (skip_ws r) with
        | Some r' => Some (Array [], r')
        | None => elements r []
        end
      else if Ascii.eqb c "034" then
        '(t, rest) ← scan_string r; Some (Str t, rest)
      else
        match strip_prefix "true" (String c r) with
        | Some r' => Some (Bool true, r')
        | None =>
            match strip_prefix "false" (String c r) with
            | Some r' => Some (Bool false, r')
            | None =>
                match strip_prefix "null" (String c r) with
                | Some r' => Some (Null, r')
                | None =>
                    '(l, rest) ← scan_number (String c r);
                    Some (Number l, rest)
                end
            end
        end
  end.

Definition elements_step
  (value_of : string -> option (value * string))
  (elements : string -> list value -> option (value * string))
  (s : string) (acc : list value) : option (value * string) :=
  '(v, r) ← value_of s;
  match skip_ws r with
  | EmptyString => None
  | String c r' =>
      if Ascii.eqb c "," then elements r' (v :: acc)
      else if Ascii.eqb c "]" then Some (Array (rev (v :: acc)), r')
      else None
  end.

Definition members_step
  (value_of : string -> option (value * string))
  (members : string -> list (string * value) -> option (value * string))
  (s : string) (acc : list (string * value)) : option (value * string) :=
  match skip_ws s with
  | EmptyString => None
  | String q r =>
      if Ascii.eqb q "034" then
        '(k, r1) ← scan_string r;
        match skip_ws r1 with
        | EmptyString => None
        | String colon r2 =>
            if Ascii.eqb colon ":" then
              '(v, r3) ← value_of r2;
              match skip_ws r3 with
              | EmptyString => None
              | String c r4 =>
                  if Ascii.eqb c "," then members r4 ((k, v) :: acc)
                  else if Ascii.eqb c "}"
                  then Some (Object (rev ((k, v) :: acc)), r4)
                  else None
              end
            else None
        end
      else None
  end.

(** The three parsers, each call spending one unit of fuel. *)
Fixpoint parse_value (fuel : nat) (s : string) : option (value * string) :=
  match fuel with
  | O => None
  | S fuel' => value_step (parse_elements fuel') (parse_members fuel') s
  end
with parse_elements (fuel : nat) (s : string) (acc : list value)
  : option (value * string) :=
  match fuel with
  | O => None
  | S fuel' => elements_step (parse_value fuel') (parse_elements fuel') s acc
  end
with parse_members (fuel : nat) (s : string) (acc : list (string * value))
  : option (value * string) :=
  match fuel with
  | O => None
  | S fuel' => members_step (parse_value fuel') (parse_members fuel') s acc
  end.

(** One value, surrounded by white space only. *)
Definition parse_with (fuel : nat) (text : string) : option value :=
  '(v, rest) ← parse_value fuel text;
  if decide (skip_ws rest = "") then Some v else None.

(** [JSON.parse].  [None] stands for the [SyntaxError] the built-in
    throws.  The fuel given is enough for every text: more of it never
    changes the answer ([parse_fuel] below). *)
Definition parse (text : string) : option value :=
  parse_with (2 * String.length text + 2) text.

(** The digits of the mantissa of a number literal read as one integer,
    how many of them follow the dot, how many there are, and what
    follows the exponent mark. *)
Fixpoint mantissa (s : string) (after_dot : bool) (digits fraction count : N)
  : N * N * N * string :=
  match s with
  | EmptyString => (digits, fraction, count, "")
  | String c r =>
      if is_digit c then
        mantissa r after_dot (10 * digits + (N_of_ascii c - 48))%N
          (if after_dot then fraction + 1 else fraction)%N (count + 1)%N
      else if Ascii.eqb c "." then mantissa r true digits fraction count
      else if Ascii.eqb c "-" then mantissa r after_dot digits fraction count
      else (digits, fraction, count, r)
  end.

Fixpoint decimal (s : string) (acc : N) : N :=
  match s with
  | EmptyString => acc
  | String c r => decimal r (10 * acc + (N_of_ascii c - 48))%N
  end.

(** The exponent of a number literal: its sign and its size. *)
Definition exponent (s : string) : bool * N :=
  match s with
  | String c r =>
      if Ascii.eqb c "-" then (true, decimal r 0%N)
      else if Ascii.eqb c "+" then (false, decimal r 0%N)
      else (false, decimal s 0%N)
  | EmptyString => (false, 0%N)
  end.

(** Whether the number a literal stands for is zero.  The number is the
    double nearest to the decimal [digits * 10 ^ shift], ties going to
    the even neighbour; it is zero exactly when the decimal is at most
    [2 ^ -1075], half of the least positive double.  A decimal with
    [count] digits is below [10 ^ count], and [2 ^ 1075] is below
    [10 ^ 324], which settles the literals with a huge negative exponent
    without computing the power. *)
Definition rounds_to_zero (literal : string) : bool :=
  let '(digits, fraction, count, rest) := mantissa literal false 0%N 0%N 0%N in
  let '(negative, size) := exponent rest in
  let shift := ((if negative then - Z.of_N size else Z.of_N size)
                - Z.of_N fraction)%Z in
  if (digits =? 0)%N then true
  else if (0 <=? shift)%Z then false
  else
    let down := Z.to_N (- shift) in
    if (count + 324 <=? down)%N then true
    else (digits * 2 ^ 1075 <=? 10 ^ down)%N.

(** JavaScript truthiness of a parsed value. *)
Definition truthy (v : value) : bool :=
  match v with
  | Null => false
  | Bool b => b
  | Number l => negb (rounds_to_zero l)
  | Str s => negb (String.eqb s "")
  | Array _ | Object _ => true
  end.

(** [v[key]] for an own property of an object; a later duplicate of a
    key wins, and every other value has no such property. *)
Fixpoint assoc_last (key : string) (ms : list (string * value)) : option value :=
  match ms with
  | [] => None
  | (k, v) :: rest =>
      match assoc_last key rest with
      | Some v' => Some v'
      | None => if String.eqb k key then Some v else None
      end
  end.

Definition get (v : value) (key : string) : option value :=
  match v with
  | Object ms => assoc_last key ms
  | _ => None
  end.

End JSON.

(** ** Strings and completions *)

(** [s.split(sep)] for a separator of one character. *)
Fixpoint split (sep : ascii) (s : string) : list string :=
  match s with
  | EmptyString => [""]
  | String c r =>
      if Ascii.eqb c sep then "" :: split sep r
      else match split sep r with
           | piece :: rest => String c piece :: rest
           | [] => [String c ""]
           end
  end.

(** Truthiness of a string, and of a string that may be [undefined]. *)
Definition nonempty (s : string) : bool := negb (String.eqb s "").

Definition truthy_string (o : option string) : option string :=
  match o with
  | Some s => if nonempty s then Some s else None
  | None => None
  end.

Inductive JsError : Type := SyntaxError | TypeError.

(** How a call ends: with a value, or with an exception on its way to the
    caller. *)
Inductive completion (A : Type) : Type :=
| Return (a : A)
| Throw (e : JsError).

Arguments Return {A} a.
Arguments Throw {A} e.

(** ** src/server/src/arduino-diagnostic.ts *)

(** [DiagnosticSeverity] of the language server protocol. *)
Module DiagnosticSeverity.

Inductive t : Type := Error | Warning | Information | Hint.

Definition value (s : t) : nat :=
  match s with
  | Error => 1
  | Warning => 2
  | Information => 3
  | Hint => 4
  end.

End DiagnosticSeverity.

Module ArduinoDiagnostic.

Inductive Error : Type :=
| E001_INVALID_CLI_VERSION
| E002_INVALID_BOARD
| E003_INVALID_PLATFORM_VERSION
| E004_INVALID_PORT.

Inductive Information : Type :=
| I002_INVALID_BOARD_NAME_UPDATE
| I003_INVALID_BOARD_NAME_INSERT.

(** [Error | Information] *)
Inductive Code : Type :=
| OfError (e : Error)
| OfInformation (i : Information).

(** The string an enum member stands for at run time. *)
Definition Error_value (e : Error) : string :=
  match e with
  | E001_INVALID_CLI_VERSION => "E001"
  | E002_INVALID_BOARD => "E002"
  | E003_INVALID_PLATFORM_VERSION => "E003"
  | E004_INVALID_PORT => "E004"
  end.

Definition Information_value (i : Information) : string :=
  match i with
  | I002_INVALID_BOARD_NAME_UPDATE => "I002"
  | I003_INVALID_BOARD_NAME_INSERT => "I003"
  end.

Definition Code_value (c : Code) : string :=
  match c with
  | OfError e => Error_value e
  | OfInformation i => Information_value i
  end.

(** [s.charAt(i)]: the empty string beyond the end. *)
Definition charAt (s : string) (i : nat) : string :=
  match String.get i s with
  | Some c => String c ""
  | None => ""
  end.

(** The functions below take the run-time string of the code, as the
    compiled functions do. *)
Definition codeToSeverity (code : string) : option DiagnosticSeverity.t :=
  let first := charAt code 0 in
  if String.eqb first "E" then Some DiagnosticSeverity.Error
  else if String.eqb first "W" then Some DiagnosticSeverity.Warning
  else if String.eqb first "I" then Some DiagnosticSeverity.Information
  else if String.eqb first "H" then Some DiagnosticSeverity.Hint
  else None.

Definition codeToMessage (code : string) : string :=
  if String.eqb code (Error_value E001_INVALID_CLI_VERSION)
  then "Invalid CLI version."
  else if String.eqb code (Error_value E002_INVALID_BOARD)
  then "Invalid board (FQBN)."
  else if String.eqb code (Error_value E003_INVALID_PLATFORM_VERSION)
  then "Invalid platform version."
  else if String.eqb code (Error_value E004_INVALID_PORT)
  then "Port required."
  else if String.eqb code (Information_value I002_INVALID_BOARD_NAME_UPDATE)
  then "Board name is not equal FQBN name."
  else if String.eqb code (Information_value I003_INVALID_BOARD_NAME_INSERT)
  then "Board name is informed."
  else "Unknown error".

Inductive DiagnosticTag : Type := Unnecessary | Deprecated.

Definition codeToTags (code : string) : option (list DiagnosticTag) :=
  if String.eqb code (Error_value E001_INVALID_CLI_VERSION)
  then Some [Deprecated]
  else None.

Record CodeDescription : Type := { href : string }.

Definition codeToDescription (code : string) : option CodeDescription :=
  if String.eqb code (Error_value E001_INVALID_CLI_VERSION)
  then Some {| href := "http://teste" |}
  else None.

Record Position : Type := { line : nat; character : nat }.
Record Range : Type := { range_start : Position; range_end : Position }.

Record DocumentSymbol : Type := {
  symbol_name : string;
  symbol_detail : option string;
  symbol_range : Range
}.

Record DiagnosticData : Type := {
  data_source : string;
  data_name : string;
  data_value : option string
}.

Record Diagnostic : Type := {
  severity : option DiagnosticSeverity.t;
  code : string;
  range : Range;
  message : string;
  codeDescription : option CodeDescription;
  tags : option (list DiagnosticTag);
  diagnostic_data : DiagnosticData
}.

(** [textDocument] is used for its [uri] only. *)
Definition createDiagnostic (textDocument_uri : string)
  (documentSymbol : DocumentSymbol) (c : Code) : Diagnostic :=
  {| severity := codeToSeverity (Code_value c);
     code := Code_value c;
     range := symbol_range documentSymbol;
     message := codeToMessage (Code_value c);
     codeDescription := codeToDescription (Code_value c);
     tags := codeToTags (Code_value c);
     diagnostic_data :=
       {| data_source := textDocument_uri;
          data_name := symbol_name documentSymbol;
          data_value := symbol_detail documentSymbol |} |}.

End ArduinoDiagnostic.

(** ** src/server/src/arduino-cli.ts *)

Module ArduinoCli.

Record WorkspaceFolder : Type := { uri : string; name : string }.

(** [logFile?: boolean | string] *)
Inductive LogFile : Type :=
| LogFlag (b : bool)
| LogPath (p : string).

Record ArduinoCliOptions : Type := {
  workspaceFolder : option WorkspaceFolder;
  configFile : option string;
  debug : bool;
  verbose : bool;
  logFile : option LogFile;
  arduinCliBin : option string
}.

(** [Partial<ArduinoCliOptions>]: every property may be missing. *)
Record PartialOptions : Type := {
  workspaceFolder' : option WorkspaceFolder;
  configFile' : option string;
  debug' : option bool;
  verbose' : option bool;
  logFile' : option LogFile;
  arduinCliBin' : option string
}.

Definition no_options : PartialOptions :=
  {| workspaceFolder' := None; configFile' := None; debug' := None;
     verbose' := None; logFile' := None; arduinCliBin' := None |}.

Definition FORMAT_JSON : list string := ["--format"; "json"].
Definition FORMAT_TEXT : list string := ["--format"; "text"].

Record IArduinoExec : Type := {
  status : bool;
  data : option JSON.value;
  reason : string
}.

(** What lies outside this file: the platform, Node's [path] module, and
    the constants [ACL_HOME] (from [./server]) and [CONFIG_SERVER_DEFAULT]
    (from [./model/config-model]). *)
Record Host : Type := {
  platform : string;
  path_join : list string -> string;
  path_dirname : string -> string;
  ACL_HOME : string;
  CONFIG_SERVER_DEFAULT : JSON.value
}.

Inductive FsNode : Type :=
| FsFile (content : string)
| FsDir.

(** What [spawnSync] hands back.  A subprocess that ran has an exit
    status ([null] when a signal ended it) and its two streams.  When the
    binary could not be started there is an [error] instead, and
    [status], [stdout] and [stderr] are all [null]. *)
Inductive SpawnSyncReturns : Type :=
| Exited (status : option Z) (out err : string)
| NotStarted.

Definition exit_status (command : SpawnSyncReturns) : option Z :=
  match command with
  | Exited status _ _ => status
  | NotStarted => None
  end.

Definition stdout (command : SpawnSyncReturns) : option string :=
  match command with
  | Exited _ out _ => Some out
  | NotStarted => None
  end.

Definition stderr (command : SpawnSyncReturns) : option string :=
  match command with
  | Exited _ _ err => Some err
  | NotStarted => None
  end.

(** The state outside the client object.  [spawned] lists the calls of
    [spawnSync] made so far.  [subprocess n bin params] is what the
    [n]-th of them gives when it is made as [bin params], and
    [written n bin params] is what the subprocess does to the files. *)
Record World : Type := {
  fs : gmap string FsNode;
  cache : gmap string IArduinoExec;
  spawned : list (string * list string);
  subprocess : nat -> string -> list string -> SpawnSyncReturns;
  written : nat -> string -> list string -> gmap string FsNode -> gmap string FsNode
}.

(** [fse.existsSync(p)]; nothing exists at the empty path. *)
Definition existsSync (w : World) (p : string) : bool :=
  nonempty p &&
  match fs w !! p with
  | Some _ => true
  | None => false
  end.

(** [fse.readFileSync(p).toString()]; it throws unless [p] is a file. *)
Definition readFileSync (w : World) (p : string) : option string :=
  match fs w !! p with
  | Some (FsFile content) => Some content
  | _ => None
  end.

Definition spawnSync (bin : string) (params : list string) (w : World)
  : SpawnSyncReturns * World :=
  (subprocess w (length (spawned w)) bin params,
   {| fs := written w (length (spawned w)) bin params (fs w);
      cache := cache w;
      spawned := spawned w ++ [(bin, params)];
      subprocess := subprocess w;
      written := written w |}).

(** *** The result cache ([./cache], not part of the sources at hand) *)

Module ACLCache.

(** Modelled from the spec: [getCacheId] of [./cache] is missing; a cache
    entry is keyed by the "command signature (name + serialized args)". *)
Definition getCacheId (name : string) (args : list string) : string :=
  name +:+ "(" +:+ String.concat "," args +:+ ")".

(** Modelled from the spec: [load] of [./cache] is missing; "a key→value
    lookup keyed by command name + arguments", giving the "last captured
    CLI result" of that signature, or [undefined]. *)
Definition load (cacheId : string) (w : World) : option IArduinoExec :=
  cache w !! cacheId.

(** Modelled from the spec: [write] of [./cache] is missing; it records
    the result as the "last captured CLI result" of the signature. *)
Definition write (cacheId : string) (result : IArduinoExec) (w : World) : World :=
  {| fs := fs w; cache := <[cacheId := result]> (cache w);
     spawned := spawned w; subprocess := subprocess w; written := written w |}.

(** Modelled from the spec: [clear] of [./cache] is missing; "a clear-all
    operation", entries being "invalidated wholesale". *)
Definition clear (w : World) : World :=
  {| fs := fs w; cache := ∅; spawned := spawned w; subprocess := subprocess w;
     written := written w |}.

End ACLCache.

(** *** The class *)

Record ArduinoCli : Type := {
  runArguments : list string;
  runOptions : ArduinoCliOptions;
  _config : option JSON.value
}.

Definition set_configFile (o : ArduinoCliOptions) (f : option string)
  : ArduinoCliOptions :=
  {| workspaceFolder := workspaceFolder o; configFile := f; debug := debug o;
     verbose := verbose o; logFile := logFile o; arduinCliBin := arduinCliBin o |}.

Definition set_logFile (o : ArduinoCliOptions) (l : option LogFile)
  : ArduinoCliOptions :=
  {| workspaceFolder := workspaceFolder o; configFile := configFile o;
     debug := debug o; verbose := verbose o; logFile := l;
     arduinCliBin := arduinCliBin o |}.

Definition set_arduinCliBin (o : ArduinoCliOptions) (b : option string)
  : ArduinoCliOptions :=
  {| workspaceFolder := workspaceFolder o; configFile := configFile o;
     debug := debug o; verbose := verbose o; logFile := logFile o;
     arduinCliBin := b |}.

Definition with_runOptions (self : ArduinoCli) (o : ArduinoCliOptions) : ArduinoCli :=
  {| runArguments := runArguments self; runOptions := o; _config := _config self |}.

Definition with_config (self : ArduinoCli) (c : option JSON.value) : ArduinoCli :=
  {| runArguments := runArguments self; runOptions := runOptions self; _config := c |}.

(** [args.push(x)] *)
Definition push (x : string) (args : list string) : list string := args ++ [x].

(** A template literal around a [logFile] read as a string. *)
Definition template_logFile (l : option LogFile) : string :=
  match l with
  | None => "undefined"
  | Some (LogFlag true) => "true"
  | Some (LogFlag false) => "false"
  | Some (LogPath p) => p
  end.

Section Client.

Variable host : Host.

(** The object literal of [normalizeOptions]: the defaults, overridden by
    the properties that [args] has. *)
Definition spread (args : option PartialOptions) : ArduinoCliOptions :=
  let a := default no_options args in
  {| workspaceFolder := workspaceFolder' a;
     configFile := configFile' a;
     debug := default false (debug' a);
     verbose := default false (verbose' a);
     logFile := logFile' a;
     arduinCliBin := arduinCliBin' a |}.

Definition normalizeOptions (args : option PartialOptions) : ArduinoCliOptions :=
  let values := spread args in
  let values :=
    match workspaceFolder values, truthy_string (configFile values) with
    | Some folder, None =>
        set_configFile values
          (Some (path_join host [uri folder; ".vscode"; "aclabarduino.json"]))
    | _, _ => values
    end in
  match workspaceFolder values, debug values with
  | Some folder, true =>
      match logFile values with
      | Some (LogPath p) =>
          set_logFile values (Some (LogPath (path_join host [uri folder; p])))
      | Some (LogFlag true) =>
          set_logFile values
            (Some (LogPath (path_join host
                     [uri folder; "arduino-cli-" +:+ name folder +:+ ".log"])))
      | _ => values
      end
  | _, _ => values
  end.

Definition normalizeArguments (runOptions : ArduinoCliOptions) : list string :=
  let args := [] in
  let args :=
    match truthy_string (configFile runOptions) with
    | Some file =>
        push (path_join host [path_dirname host file; "arduino-cli.yaml"])
          (push "--config-file" args)
    | None => args
    end in
  let args :=
    if debug runOptions
    then push "debug"
           (push "--log-level"
              (push (template_logFile (logFile runOptions))
                 (push "--log-file" args)))
    else args in
  let args := if verbose runOptions then push "--verbose" args else args in
  args.

(** [!this._config] *)
Definition config_missing (self : ArduinoCli) : bool :=
  match _config self with
  | Some c => negb (JSON.truthy c)
  | None => true
  end.

(** The getter [config]: the value returned and the object afterwards.
    An exception of [readFileSync] or [JSON.parse] is caught inside, and
    leaves [_config] as it was. *)
Definition config (self : ArduinoCli) (w : World) : option JSON.value * ArduinoCli :=
  let self :=
    if config_missing self then
      match truthy_string (configFile (runOptions self)) with
      | Some file =>
          if existsSync w file then
            match readFileSync w file with
            | Some content =>
                match JSON.parse (if nonempty content then content else "") with
                | Some parsed => with_config self (Some parsed)
                | None => self
                end
            | None => self
            end
          else with_config self (Some (CONFIG_SERVER_DEFAULT host))
      | None => with_config self (Some (CONFIG_SERVER_DEFAULT host))
      end
    else self in
  (_config self, self).

(** [config.cliVersion]: whatever the configuration holds under that
    name, [undefined] when it holds nothing. *)
Definition cliVersion (c : JSON.value) : option JSON.value :=
  JSON.get c "cliVersion".

Definition findExecutable (release : string) (w : World) : option string :=
  let cliPath := "" in
  let release := if nonempty release then release else "xxxx" in
  let cliPath :=
    if String.eqb (platform host) "win32"
    then path_join host [ACL_HOME host; "arduino-cli"; release; "arduino-cli.exe"]
    else if String.eqb (platform host) "linux"
    then path_join host [ACL_HOME host; "arduino-cli"; release; "arduino-cli"]
    else cliPath in
  if existsSync w cliPath then Some cliPath else None.

(** [findExecutable] as the constructor calls it, on a value that its
    signature declares a string but that comes out of a parsed file.  A
    falsy value is replaced by ["xxxx"] like the empty string.  A truthy
    value that is not a string reaches [path.join] on win32 and linux,
    which throws a [TypeError] for such an argument; on another platform
    the release is not looked at. *)
Definition findExecutable_any (release : option JSON.value) (w : World)
  : completion (option string) :=
  match release with
  | Some (JSON.Str s) => Return (findExecutable s w)
  | Some v =>
      if JSON.truthy v then
        if String.eqb (platform host) "win32" || String.eqb (platform host) "linux"
        then Throw TypeError
        else Return (findExecutable "" w)
      else Return (findExecutable "" w)
  | None => Return (findExecutable "" w)
  end.

(** The constructor: the object it builds, or the exception it ends
    with. *)
Definition new_ArduinoCli (runOptions : ArduinoCliOptions)
  (runArguments : list string) (w : World) : completion ArduinoCli :=
  let self := {| runArguments := runArguments; runOptions := runOptions;
                 _config := None |} in
  let '(c, self) := config self w in
  match c with
  | Some c =>
      if JSON.truthy c then
        match findExecutable_any (cliVersion c) w with
        | Return bin =>
            Return (with_runOptions self (set_arduinCliBin (runOptions) bin))
        | Throw e => Throw e
        end
      else Return self
  | None => Return self
  end.

Definition executeCommand (self : ArduinoCli) (commandCli : string)
  (args : list string) (extra : list string) (w : World)
  : completion IArduinoExec * World :=
  match truthy_string (arduinCliBin (runOptions self)) with
  | None =>
      (Return {| status := false; data := None;
                 reason := "Arduino-CLI not informed" |}, w)
  | Some bin =>
      let params :=
        commandCli :: List.filter nonempty args ++ runArguments self ++ extra in
      let '(command, w) := spawnSync bin params w in
      match stderr command, stdout command with
      | Some error, Some stdout =>
          if negb (nonempty stdout) then
            (Return {| status := negb (nonempty error); data := None;
                       reason := error |}, w)
          else if bool_decide (extra !! 1%nat = Some "text") then
            (Return {| status := negb (nonempty error);
                       data := Some (JSON.Object
                         [("text",
                           JSON.Array (JSON.Str <$> split "013"%char stdout))]);
                       reason := error |}, w)
          else
            match JSON.parse stdout with
            | Some parsed =>
                (Return {| status := negb (nonempty error); data := Some parsed;
                           reason := error |}, w)
            | None => (Throw SyntaxError, w)
            end
      | _, _ => (Throw TypeError, w)
      end
  end.

(** [getCurrentVersion]: the value of [version] at the end, [undefined]
    when the result has no ["VersionString"].  A result without data, or
    with [null] data, makes the property access throw; the [catch] of the
    method leaves [version] empty. *)
Definition getCurrentVersion (self : ArduinoCli) (w : World)
  : option JSON.value * World :=
  let version := Some (JSON.Str "") in
  match executeCommand self "version" [] FORMAT_JSON w with
  | (Return result, w) =>
      if status result then
        match data result with
        | None | Some JSON.Null => (version, w)
        | Some d => (JSON.get d "VersionString", w)
        end
      else (version, w)
  | (Throw _, w) => (version, w)
  end.

Definition configInitDir (self : ArduinoCli) (destFolder : string) (w : World)
  : completion IArduinoExec * World :=
  executeCommand self "config" ["init"; "--dest-dir"; destFolder] FORMAT_JSON w.

Definition configInitFile (self : ArduinoCli) (destFile : string) (w : World)
  : completion IArduinoExec * World :=
  executeCommand self "config" ["init"; "--dest-file"; destFile] FORMAT_JSON w.

Definition coreDownload (self : ArduinoCli) (w : World)
  : completion IArduinoExec * World :=
  executeCommand self "core" ["download"] FORMAT_JSON w.

Definition coreList (self : ArduinoCli) (params : string) (w : World)
  : completion IArduinoExec * World :=
  let cacheId := ACLCache.getCacheId "coreList" [params] in
  match ACLCache.load cacheId w with
  | Some result => (Return result, w)
  | None =>
      match executeCommand self "core" ["list"; params] FORMAT_JSON w with
      | (Return result, w) => (Return result, ACLCache.write cacheId result w)
      | (Throw e, w) => (Throw e, w)
      end
  end.

Definition coreUpdateIndex (self : ArduinoCli) (w : World)
  : completion IArduinoExec * World :=
  let w := ACLCache.clear w in
  executeCommand self "core" ["update-index"] FORMAT_TEXT w.

Definition configAdd3rdPartyUrl (self : ArduinoCli) (url : string) (w : World)
  : completion IArduinoExec * World :=
  executeCommand self "config" ["add"; "board_manager.additional_urls"; url]
    FORMAT_TEXT w.

Definition configRemove3thPartyUrl (self : ArduinoCli) (url : string) (w : World)
  : completion IArduinoExec * World :=
  executeCommand self "config" ["remove"; "board_manager.additional_urls"; url]
    FORMAT_TEXT w.

Definition validate3rdPartyUrl (self : ArduinoCli) (url : string) (w : World)
  : completion (list IArduinoExec) * World :=
  let result : list IArduinoExec := [] in
  match configAdd3rdPartyUrl self url w with
  | (Throw e, w) => (Throw e, w)
  | (Return r1, w) =>
      let result := (result ++ [r1])%list in
      match coreUpdateIndex self w with
      | (Throw e, w) => (Throw e, w)
      | (Return r2, w) =>
          let result := (result ++ [r2])%list in
          match configRemove3thPartyUrl self url w with
          | (Throw e, w) => (Throw e, w)
          | (Return r3, w) => (Return (result ++ [r3])%list, w)
          end
      end
  end.

Definition coreInstall (self : ArduinoCli) (platform version : string) (w : World)
  : completion IArduinoExec * World :=
  executeCommand self "core" ["install"; platform +:+ "@" +:+ version]
    FORMAT_TEXT w.

Definition boardList (self : ArduinoCli) (w : World)
  : completion IArduinoExec * World :=
  let cacheId := ACLCache.getCacheId "boardList" [] in
  match ACLCache.load cacheId w with
  | Some result => (Return result, w)
  | None =>
      match executeCommand self "board" ["list"] FORMAT_JSON w with
      | (Return result, w) => (Return result, ACLCache.write cacheId result w)
      | (Throw e, w) => (Throw e, w)
      end
  end.

(** [v === s] for a string [s]. *)
Definition strict_equal_string (v : option JSON.value) (s : string) : bool :=
  match v with
  | Some (JSON.Str t) => String.eqb t s
  | _ => false
  end.

(** The two places where [checkEnvironment] builds its diagnostic,
    [this.runOptions.workspaceFolder &&
     ArduinoDiagnostic.createProjectDiagnostic(...)].  Without a workspace
    folder the value is [undefined].  With one the call is made; the
    module [ArduinoDiagnostic] above has no function
    [createProjectDiagnostic] (and its enum [Error] no member
    [E006_FILE_NOT_FOUND] or [E007_CLI_NOT_INSTALLED]), so the call throws
    a [TypeError]. *)
Definition createProjectDiagnostic_for (self : ArduinoCli)
  : completion (option ArduinoDiagnostic.Diagnostic) :=
  match workspaceFolder (runOptions self) with
  | Some _ => Throw TypeError
  | None => Return None
  end.

(** [checkEnvironment]: the diagnostic the promise resolves to, or the
    exception thrown before there is a promise; the object and the world
    afterwards. *)
Definition checkEnvironment (self : ArduinoCli) (release : string) (w : World)
  : completion (option ArduinoDiagnostic.Diagnostic) * ArduinoCli * World :=
  match truthy_string (configFile (runOptions self)) with
  | None => (Return None, self, w)
  | Some file =>
      if negb (existsSync w file) then
        (createProjectDiagnostic_for self, self, w)
      else
        let self :=
          with_runOptions self
            (set_arduinCliBin (runOptions self) (findExecutable release w)) in
        let '(version, w) := getCurrentVersion self w in
        if strict_equal_string version release then
          let cliConfig := path_join host [path_dirname host file; "arduino-cli.yaml"] in
          if negb (existsSync w cliConfig) then
            match configInitFile self cliConfig w with
            | (Return _, w) => (Return None, self, w)
            | (Throw e, w) => (Throw e, self, w)
            end
          else (Return None, self, w)
        else (createProjectDiagnostic_for self, self, w)
  end.

(** *** The static side of the class, and the objects it has created *)

(** [heap] holds every client object whose construction was completed, a
    reference being a position in it; [registered] lists the objects
    handed to [registerMessages]. *)
Record Process : Type := {
  heap : list ArduinoCli;
  _instance : option nat;
  _initializationOptions : option PartialOptions;
  registered : list nat;
  world : World
}.

(** [instance]: the reference returned, or the exception of the
    constructor, which leaves the static fields as they were. *)
Definition instance (initializationOptions : option PartialOptions) (p : Process)
  : completion nat * Process :=
  let initializationOptions :=
    match initializationOptions with
    | Some o => Some o
    | None => _initializationOptions p
    end in
  match _instance p with
  | None =>
      let runOptions := normalizeOptions initializationOptions in
      let runArguments := normalizeArguments runOptions in
      match new_ArduinoCli runOptions runArguments (world p) with
      | Return self =>
          let ref := length (heap p) in
          (Return ref,
           {| heap := heap p ++ [self];
              _instance := Some ref;
              _initializationOptions := initializationOptions;
              registered := registered p ++ [ref];
              world := world p |})
      | Throw e => (Throw e, p)
      end
  | Some ref => (Return ref, p)
  end.

End Client.

(** A process that has not touched the class yet. *)
Definition start (w : World) : Process :=
  {| heap := []; _instance := None; _initializationOptions := None;
     registered := []; world := w |}.

End ArduinoCli.

(** ** src/client/src/explorer/arduino-item.ts *)

Module Explorer.

(** Modelled from the spec: the enum [ArduinoEntryStatus] of
    [./arduino-entry] is missing; a project entry has a "status (`ok`,
    `candidate`, `error`)". *)
Inductive ArduinoEntryStatus : Type := ok | candidate | error.

Record Uri : Type := { fsPath : string }.
Record WorkspaceFolder : Type := { folder_name : string; folder_uri : Uri }.

(** The members of the configuration model that a tree item shows. *)
Record ConfigModel : Type := {
  alias : option string;
  port : string;
  board_name : string
}.

(** [Diagnostic] of the language client, used for its [message] only. *)
Record Diagnostic : Type := { message : string }.

Record IArduinoEntry : Type := {
  project : WorkspaceFolder;
  model : ConfigModel;
  status : ArduinoEntryStatus;
  errors : list Diagnostic
}.

Inductive TreeItemCollapsibleState : Type := None_ | Collapsed | Expanded.

Record Command : Type := {
  command_id : string;
  title : string;
  arguments : list WorkspaceFolder
}.

Record IconPath : Type := { light : string; dark : string }.

Record TreeItem : Type := {
  label : string;
  collapsibleState : TreeItemCollapsibleState;
  description : string;
  tooltip : string;
  command : Command;
  iconPath : IconPath;
  contextValue : string
}.

(** The enum has no other member, so the [default] branch of the source,
    which gives ["<checking>"], is never taken. *)
Definition statusToString (s : ArduinoEntryStatus) : string :=
  match s with
  | ok => ""
  | candidate => "<candidate>"
  | error => "<error>"
  end.

Definition newline : string := String "010"%char "".

Section Items.

(** The directory of the compiled module, [path.resolve], and the text a
    template literal gives for a member of [ArduinoEntryStatus]. *)
Variable __dirname : string.
Variable path_resolve : list string -> string.
Variable status_text : ArduinoEntryStatus -> string.

Definition iconFolder : list string := [__dirname; ".."; ".."; ".."; "fileicons"].
Definition resourceFolder : list string := [__dirname; ".."; ".."; ".."; "resources"].

Definition iconFileLight : string :=
  path_resolve (iconFolder ++ ["light"] ++ ["aclabarduino_file.svg"]).
Definition iconFileDark : string :=
  path_resolve (iconFolder ++ ["dark"] ++ ["aclabarduino_file.svg"]).
Definition iconFileNotExistLight : string :=
  path_resolve (iconFolder ++ ["light"] ++ ["aclabarduino_file_not_exist.svg"]).
Definition iconFileNotExistDark : string :=
  path_resolve (iconFolder ++ ["dark"] ++ ["aclabarduino_file_not_exist.svg"]).

Definition ArduinoTreeItem (entry : IArduinoEntry) : TreeItem :=
  {| label :=
       match truthy_string (alias (model entry)) with
       | Some a => a
       | None => folder_name (project entry)
       end;
     collapsibleState :=
       match status entry with
       | ok => Collapsed
       | _ => None_
       end;
     description :=
       port (model entry) +:+ " " +:+ statusToString (status entry)
         +:+ " [" +:+ status_text (status entry) +:+ "]";
     tooltip :=
       match status entry with
       | error => String.concat newline (message <$> errors entry)
       | _ => board_name (model entry) +:+ " <"
                +:+ fsPath (folder_uri (project entry)) +:+ ">"
       end;
     command :=
       match status entry with
       | ok => {| command_id := "arduinoExplorer.openConfiguration";
                  title := "Open"; arguments := [project entry] |}
       | candidate => {| command_id := "arduinoExplorer.initialize";
                         title := "Initialize"; arguments := [project entry] |}
       | _ => {| command_id := "arduinoExplorer.checkProject";
                 title := "Check"; arguments := [project entry] |}
       end;
     iconPath :=
       {| light := match status entry with
                   | ok => iconFileLight
                   | _ => iconFileNotExistLight
                   end;
          dark := match status entry with
                  | ok => iconFileDark
                  | _ => iconFileNotExistDark
                  end |};
     contextValue :=
       match status entry with
       | ok => "aclProject"
       | _ => "candidateProject"
       end |}.

End Items.

End Explorer.

(** ** A sample installation, used to run the definitions on concrete inputs *)

(** The part of [s] before its last slash, if it has one. *)
Fixpoint before_last_slash (s : string) : option string :=
  match s with
  | EmptyString => None
  | String c r =>
      match before_last_slash r with
      | Some d => Some (String c d)
      | None => if Ascii.eqb c "/" then Some "" else None
      end
  end.

(** [path.dirname] and [path.join] on POSIX paths that need no
    normalisation. *)
Definition posix_dirname (s : string) : string :=
  match before_last_slash s with
  | Some "" => "/"
  | Some d => d
  | None => "."
  end.

Definition posix_join (parts : list string) : string :=
  String.concat "/" (List.filter nonempty parts).

Definition linux_host : ArduinoCli.Host :=
  {| ArduinoCli.platform := "linux";
     ArduinoCli.path_join := posix_join;
     ArduinoCli.path_dirname := posix_dirname;
     ArduinoCli.ACL_HOME := "/home/user/.aclabarduino";
     ArduinoCli.CONFIG_SERVER_DEFAULT :=
       JSON.Object [("cliVersion", JSON.Str "");
                    ("board", JSON.Str "");
                    ("port", JSON.Str "")] |}.

(** ** Vocabulary of the statements *)

Module Terms.
Import ArduinoCli.

(** The result of a call made while no binary is known. *)
Definition not_informed : IArduinoExec :=
  {| status := false; data := None; reason := "Arduino-CLI not informed" |}.

(** The parameters [executeCommand] hands to the subprocess. *)
Definition command_line (self : ArduinoCli) (commandCli : string)
  (args extra : list string) : list string :=
  commandCli :: List.filter nonempty args ++ runArguments self ++ extra.

(** What the next call of [spawnSync] made in [w] gives. *)
Definition next_output (w : World) (bin : string) (params : list string)
  : SpawnSyncReturns :=
  subprocess w (length (spawned w)) bin params.

(** What [executeCommand] makes of the two streams of a subprocess that
    was started, for the format asked for by [extra]. *)
Definition result_of (extra : list string) (out err : string)
  : completion IArduinoExec :=
  if negb (nonempty out) then
    Return {| status := negb (nonempty err); data := None; reason := err |}
  else if bool_decide (extra !! 1%nat = Some "text") then
    Return {| status := negb (nonempty err);
              data := Some (JSON.Object
                [("text", JSON.Array (JSON.Str <$> split "013"%char out))]);
              reason := err |}
  else
    match JSON.parse out with
    | Some parsed =>
        Return {| status := negb (nonempty err); data := Some parsed;
                  reason := err |}
    | None => Throw SyntaxError
    end.

(** The number of subprocesses started so far. *)
Definition invocations (w : World) : nat := length (spawned w).

(** The text format as the specification words it: "stdout split into
    its newline-delimited lines". *)
Definition spec_lines (out : string) : JSON.value :=
  JSON.Array (JSON.Str <$> split "010"%char out).

(** The text format as [executeCommand] builds it. *)
Definition text_data (out : string) : JSON.value :=
  JSON.Object [("text", JSON.Array (JSON.Str <$> split "013"%char out))].

(** The result of a command of the text format whose subprocess printed
    [out] and [err]. *)
Definition text_result (out err : string) : IArduinoExec :=
  {| status := negb (nonempty err);
     data := if nonempty out then Some (text_data out) else None;
     reason := err |}.

(** How a command of the text format ends, given what [spawnSync]
    returned. *)
Definition text_outcome (command : SpawnSyncReturns) : completion IArduinoExec :=
  match command with
  | Exited _ out err => Return (text_result out err)
  | NotStarted => Throw TypeError
  end.

(** A world with the given files, an empty cache and no subprocess yet,
    in which the [n]-th subprocess gives [out n] and writes no file. *)
Definition world_of (files : list (string * FsNode))
  (out : nat -> SpawnSyncReturns) : World :=
  {| fs := list_to_map files; cache := ∅; spawned := [];
     subprocess := fun n _ _ => out n;
     written := fun _ _ _ files => files |}.

Definition prints (out err : string) : SpawnSyncReturns :=
  Exited (Some 0%Z) out err.

End Terms.

(** The severity that the specification reads off the first character of
    a code: E for an error, W for a warning, I for an information and H
    for a hint. *)
Definition severity_of_first (first : ascii) : option DiagnosticSeverity.t :=
  match first with
  | "E"%char => Some DiagnosticSeverity.Error
  | "W"%char => Some DiagnosticSeverity.Warning
  | "I"%char => Some DiagnosticSeverity.Information
  | "H"%char => Some DiagnosticSeverity.Hint
  | _ => None
  end.




(** ** Sequences of calls *)

Module Calls.
Import ArduinoCli.

(** The pattern shared by [coreList] and [boardList]: answer from the
    cache, or run the command and record what it returns. *)
Definition through_cache (cacheId : string)
  (run : World -> completion IArduinoExec * World) (w : World)
  : completion IArduinoExec * World :=
  match ACLCache.load cacheId w with
  | Some result => (Return result, w)
  | None =>
      match run w with
      | (Return result, w) => (Return result, ACLCache.write cacheId result w)
      | (Throw e, w) => (Throw e, w)
      end
  end.

(** The same call made [n] times in a row: what each call gave, and the
    world at the end. *)
Fixpoint again {A : Type} (n : nat) (call : World -> A * World) (w : World)
  : list A * World :=
  match n with
  | O => ([], w)
  | S n' =>
      let '(a, w) := call w in
      let '(rest, w) := again n' call w in
      (a :: rest, w)
  end.

(** What the rest of the server asks of the class: the instance itself,
    or a method of the instance, reached as [ArduinoCli.instance().m(...)]. *)
Inductive Request : Type :=
| AskInstance (initializationOptions : option PartialOptions)
| AskCheckEnvironment (release : string)
| AskGetCurrentVersion
| AskConfigInitFile (destFile : string)
| AskCoreList (params : string)
| AskCoreUpdateIndex
| AskValidate3rdPartyUrl (url : string)
| AskCoreInstall (platform version : string)
| AskBoardList.

(** The object and the world after a method has run. *)
Definition method (host : Host) (q : Request) (self : ArduinoCli) (w : World)
  : ArduinoCli * World :=
  match q with
  | AskInstance _ => (self, w)
  | AskCheckEnvironment release =>
      let '(_, self, w) := checkEnvironment host self release w in (self, w)
  | AskGetCurrentVersion => (self, snd (getCurrentVersion self w))
  | AskConfigInitFile destFile => (self, snd (configInitFile self destFile w))
  | AskCoreList params => (self, snd (coreList self params w))
  | AskCoreUpdateIndex => (self, snd (coreUpdateIndex self w))
  | AskValidate3rdPartyUrl url => (self, snd (validate3rdPartyUrl self url w))
  | AskCoreInstall platform version =>
      (self, snd (coreInstall self platform version w))
  | AskBoardList => (self, snd (boardList self w))
  end.

(** The reference the request obtains from [instance], and the process
    after the request.  A request whose call of [instance] throws goes no
    further. *)
Definition serve (host : Host) (p : Process) (q : Request)
  : completion nat * Process :=
  match q with
  | AskInstance initializationOptions => instance host initializationOptions p
  | _ =>
      match instance host None p with
      | (Return ref, p) =>
          match heap p !! ref with
          | Some self =>
              let '(self, w) := method host q self (world p) in
              (Return ref,
               {| heap := <[ref := self]> (heap p);
                  _instance := _instance p;
                  _initializationOptions := _initializationOptions p;
                  registered := registered p;
                  world := w |})
          | None => (Return ref, p)
          end
      | (Throw e, p) => (Throw e, p)
      end
  end.

(** What each request of a list obtained, and the process at the end. *)
Fixpoint serve_all (host : Host) (p : Process) (qs : list Request)
  : list (completion nat) * Process :=
  match qs with
  | [] => ([], p)
  | q :: rest =>
      let '(ref, p) := serve host p q in
      let '(refs, p) := serve_all host p rest in
      (ref :: refs, p)
  end.

End Calls.

(** Two clients that differ at most in the binary they know. *)
Definition same_but_binary (a b : ArduinoCli.ArduinoCli) : Prop :=
  ArduinoCli.runArguments a = ArduinoCli.runArguments b
  /\ ArduinoCli._config a = ArduinoCli._config b
  /\ ArduinoCli.set_arduinCliBin (ArduinoCli.runOptions a) None
     = ArduinoCli.set_arduinCliBin (ArduinoCli.runOptions b) None.

(** A parser of values, or of the rest of a container, that never hands
    back more input than it was given, and in fact less. *)
Definition shrinks (f : string -> option (JSON.value * string)) : Prop :=
  forall s v r, f s = Some (v, r) -> String.length r < String.length s.

Definition shrinks_acc {A : Type}
  (f : string -> A -> option (JSON.value * string)) : Prop :=
  forall s acc v r, f s acc = Some (v, r) -> String.length r < String.length s.

(** What holds of a process from the first call of [instance] on. *)
Definition settled (first : option ArduinoCli.PartialOptions)
  (created : ArduinoCli.ArduinoCli) (p : ArduinoCli.Process) : Prop :=
  ArduinoCli._instance p = Some 0
  /\ ArduinoCli._initializationOptions p = first
  /\ ArduinoCli.registered p = [0]
  /\ exists self, ArduinoCli.heap p = [self] /\ same_but_binary self created.

(** ** Concrete runs *)

Module Runs.
Import ArduinoCli Terms.

Definition LF : string := String "010"%char "".

Definition cli_path : string := "/home/user/.aclabarduino/arduino-cli/0.20.2/arduino-cli".
Definition project_file : string := "/ws/.vscode/aclabarduino.json".

(** Release 0.20.2 is installed and the project asks for it. *)
Definition installed_files : list (string * FsNode) :=
  [(project_file,
    FsFile ("{" +:+ dquote +:+ "cliVersion" +:+ dquote +:+ ": "
              +:+ dquote +:+ "0.20.2" +:+ dquote +:+ "}"));
   (cli_path, FsFile "")].

(** Every subprocess prints an empty JSON array. *)
Definition installed_world : World :=
  world_of installed_files (fun _ => prints "[]" "").

(** Every subprocess prints the two lines [a] and [b]. *)
Definition two_lines_world : World :=
  world_of installed_files (fun _ => prints ("a" +:+ LF +:+ "b") "").

(** Every subprocess prints an empty JSON array, and a warning on stderr. *)
Definition warning_world : World :=
  world_of installed_files (fun _ => prints "[]" "deprecated flag").

(** Every subprocess prints a line that is not JSON. *)
Definition chatty_world : World :=
  world_of installed_files (fun _ => prints "No platforms installed." "").

(** The project file is there, but cut short. *)
Definition broken_world : World :=
  world_of [(project_file, FsFile "{"); (cli_path, FsFile "")]
    (fun _ => prints "[]" "").

(** Nothing is installed and there is no project file. *)
Definition empty_world : World := world_of [] (fun _ => prints "" "").

Definition project_options : PartialOptions :=
  {| workspaceFolder' := None; configFile' := Some project_file;
     debug' := None; verbose' := None; logFile' := None;
     arduinCliBin' := None |}.

(** The object at the moment its constructor asks for the configuration,
    which is the only place where the getter [config] is used. *)
Definition fresh_client : ArduinoCli :=
  let runOptions := normalizeOptions linux_host (Some project_options) in
  {| runArguments := normalizeArguments linux_host runOptions;
     runOptions := runOptions;
     _config := None |}.

(** The object a construction ends with; the object as it is handed to
    the constructor when the construction throws. *)
Definition constructed (host : Host) (options : PartialOptions) (w : World)
  : ArduinoCli :=
  let runOptions := normalizeOptions host (Some options) in
  match new_ArduinoCli host runOptions (normalizeArguments host runOptions) w with
  | Return self => self
  | Throw _ =>
      {| runArguments := normalizeArguments host runOptions;
         runOptions := runOptions; _config := None |}
  end.

(** The client that [instance] constructs for the project where release
    0.20.2 is installed. *)
Definition project_client : ArduinoCli :=
  constructed linux_host project_options installed_world.

(** The project file gives a number where the CLI version is expected. *)
Definition typo_world : World :=
  world_of
    [(project_file,
      FsFile ("{" +:+ dquote +:+ "cliVersion" +:+ dquote +:+ ": 5}"));
     (cli_path, FsFile "")]
    (fun _ => prints "[]" "").

(** The binary is installed but cannot be started. *)
Definition stuck_world : World :=
  world_of installed_files (fun _ => NotStarted).

(** The world once the list of cores has been asked for. *)
Definition warm_world : World := snd (coreList project_client "" installed_world).

(** The client and the world after a check against release 0.21.0, which
    is not installed. *)
Definition stale_client : ArduinoCli :=
  snd (fst (checkEnvironment linux_host project_client "0.21.0" warm_world)).

Definition stale_world : World :=
  snd (checkEnvironment linux_host project_client "0.21.0" warm_world).

(** The world once the list of boards has been asked for while the
    binary complains on stderr. *)
Definition complained_boards_world : World :=
  snd (boardList project_client warning_world).

(** The world once the list of cores has been asked for while the binary
    complains on stderr. *)
Definition complained_world : World := snd (coreList project_client "" warning_world).

End Runs.

(** ** More concrete runs *)

(** Whether the character [c] occurs in [s]. *)
Fixpoint occurs (c : ascii) (s : string) : bool :=
  match s with
  | EmptyString => false
  | String d r => Ascii.eqb d c || occurs c r
  end.

Module MoreRuns.
Import ArduinoCli Terms.

Definition blink : WorkspaceFolder := {| uri := "/ws"; name := "blink" |}.

(** A workspace folder, debugging on, and a log file asked for by flag. *)
Definition workspace_options : PartialOptions :=
  {| workspaceFolder' := Some blink; configFile' := None;
     debug' := Some true; verbose' := None; logFile' := Some (LogFlag true);
     arduinCliBin' := None |}.

(** Debugging on, and nothing said about the log file. *)
Definition debug_options : PartialOptions :=
  {| workspaceFolder' := None; configFile' := None;
     debug' := Some true; verbose' := None; logFile' := None;
     arduinCliBin' := None |}.

Definition version_text : string :=
  "{" +:+ dquote +:+ "VersionString" +:+ dquote +:+ ": "
      +:+ dquote +:+ "0.20.2" +:+ dquote +:+ "}".

(** Release 0.20.2 is installed, and every subprocess prints its version
    object. *)
Definition version_world : World :=
  world_of Runs.installed_files (fun _ => prints version_text "").

(** The same output, from a subprocess that ends with exit status 1. *)
Definition failing_version_world : World :=
  world_of Runs.installed_files
    (fun _ => Exited (Some 1%Z) version_text "").

(** Release 0.20.2 is installed; the first subprocess prints nothing and
    the binary cannot be started a second time. *)
Definition lost_world : World :=
  world_of Runs.installed_files
    (fun n => match n with 0 => prints "" "" | _ => NotStarted end).

(** The project file gives the number 1e-400 as CLI version, which is
    read as zero. *)
Definition tiny_world : World :=
  world_of
    [(Runs.project_file,
      FsFile ("{" +:+ dquote +:+ "cliVersion" +:+ dquote +:+ ": 1e-400}"));
     (Runs.cli_path, FsFile "")]
    (fun _ => prints "[]" "").

(** The client of the workspace folder [blink], constructed where
    nothing is installed and the project has no config file yet. *)
Definition lonely_client : ArduinoCli :=
  Runs.constructed linux_host workspace_options Runs.empty_world.

(** The project of [blink] has its config file, and release 0.20.2 is
    installed; every subprocess prints its version object. *)
Definition blink_world : World :=
  world_of (("/ws/.vscode/aclabarduino.json", FsFile "{}") :: Runs.installed_files)
    (fun _ => prints version_text "").

(** The client of the workspace folder [blink], constructed there. *)
Definition blink_client : ArduinoCli :=
  Runs.constructed linux_host workspace_options blink_world.

End MoreRuns.

(** A symbol and an entry to try the definitions on. *)
Definition board_symbol : ArduinoDiagnostic.DocumentSymbol :=
  {| ArduinoDiagnostic.symbol_name := "board";
     ArduinoDiagnostic.symbol_detail := Some "arduino:avr:uno";
     ArduinoDiagnostic.symbol_range :=
       {| ArduinoDiagnostic.range_start :=
            {| ArduinoDiagnostic.line := 3; ArduinoDiagnostic.character := 2 |};
          ArduinoDiagnostic.range_end :=
            {| ArduinoDiagnostic.line := 3; ArduinoDiagnostic.character := 28 |} |} |}.

Definition failed_entry : Explorer.IArduinoEntry :=
  {| Explorer.project :=
       {| Explorer.folder_name := "blink";
          Explorer.folder_uri := {| Explorer.fsPath := "/ws" |} |};
     Explorer.model :=
       {| Explorer.alias := Some ""; Explorer.port := "COM3";
          Explorer.board_name := "Arduino Uno" |};
     Explorer.status := Explorer.error;
     Explorer.errors :=
       [{| Explorer.message := "Invalid board (FQBN)." |};
        {| Explorer.message := "Port required." |}] |}.

Definition named_entry : Explorer.IArduinoEntry :=
  {| Explorer.project :=
       {| Explorer.folder_name := "blink";
          Explorer.folder_uri := {| Explorer.fsPath := "/ws" |} |};
     Explorer.model :=
       {| Explorer.alias := Some "Porch light"; Explorer.port := "COM3";
          Explorer.board_name := "Arduino Uno" |};
     Explorer.status := Explorer.ok;
     Explorer.errors := [] |}.

(** * Properties *)

(** ** The JSON reader has fuel enough *)

Module JSONFacts.
Import JSON.

Local Abbreviation len := String.length.

Lemma skip_ws_le (s : string) : len (skip_ws s) <= len s.
Proof.
  induction s as [|c r IH]; cbn; [lia|].
  destruct (is_ws c); cbn; lia.
Qed.

Lemma take_digits_le (s : string) : len (snd (take_digits s)) <= len s.
Proof.
  induction s as [|c r IH]; cbn; [lia|].
  destruct (is_digit c); cbn; [|lia].
  destruct (take_digits r) as [ds rest]. cbn in *. lia.
Qed.

Lemma scan_digits_le (mark s l r : string) :
  scan_digits mark s = Some (l, r) -> len r <= len s.
Proof.
  unfold scan_digits. pose proof (take_digits_le s) as H.
  destruct (take_digits s) as [[|d ds] rest]; [discriminate|].
  intros [= _ <-]. exact H.
Qed.

Lemma scan_int_lt (s l r : string) :
  scan_int s = Some (l, r) -> len r < len s.
Proof.
  unfold scan_int.
  assert (Hdigits : forall sign s1, len s1 <= len s ->
            match s1 with
            | String c r0 =>
                if Ascii.eqb c "0" then Some (sign +:+ "0", r0)
                else if is_digit c
                then let '(ds, rest) := take_digits r0 in
                     Some (sign +:+ String c ds, rest)
                else None
            | EmptyString => None
            end = Some (l, r) -> len r < len s).
  { intros sign [|c r0] Hle; [discriminate|]. cbn in Hle.
    destruct (Ascii.eqb c "0"); [intros [= _ <-]; lia|].
    destruct (is_digit c); [|discriminate].
    pose proof (take_digits_le r0) as H.
    destruct (take_digits r0) as [ds rest]. intros [= _ <-]. cbn in H. lia. }
  destruct s as [|c r0]; [discriminate|].
  destruct (Ascii.eqb c "-").
  - apply (Hdigits "-" r0). cbn. lia.
  - apply (Hdigits "" (String c r0)). lia.
Qed.

Lemma scan_frac_le (s l r : string) :
  scan_frac s = Some (l, r) -> len r <= len s.
Proof.
  unfold scan_frac. destruct s as [|c r0]; [intros [= _ <-]; lia|].
  destruct (Ascii.eqb c ".").
  - intros H. apply scan_digits_le in H. cbn. lia.
  - intros [= _ <-]. lia.
Qed.

Lemma scan_exp_le (s l r : string) :
  scan_exp s = Some (l, r) -> len r <= len s.
Proof.
  unfold scan_exp. destruct s as [|c r0]; [intros [= _ <-]; lia|].
  destruct (Ascii.eqb c "e" || Ascii.eqb c "E"); [|intros [= _ <-]; lia].
  destruct r0 as [|sign r1]; [discriminate|].
  destruct (Ascii.eqb sign "+" || Ascii.eqb sign "-");
    intros H; apply scan_digits_le in H; cbn in *; lia.
Qed.

Lemma scan_number_lt (s l r : string) :
  scan_number s = Some (l, r) -> len r < len s.
Proof.
  unfold scan_number.
  destruct (scan_int s) as [[i s1]|] eqn:Hi; [|discriminate]. cbn.
  destruct (scan_frac s1) as [[f s2]|] eqn:Hf; [|discriminate]. cbn.
  destruct (scan_exp s2) as [[e s3]|] eqn:He; [|discriminate]. cbn.
  intros [= _ <-].
  apply scan_int_lt in Hi. apply scan_frac_le in Hf. apply scan_exp_le in He. lia.
Qed.

Lemma scan_string_lt_upto (n : nat) :
  forall s t r, len s <= n -> scan_string s = Some (t, r) -> len r < len s.
Proof.
  induction n as [|n IH]; intros s t r Hn.
  - destruct s; [discriminate | cbn in Hn; lia].
  - destruct s as [|c s1]; [discriminate|]. cbn in Hn. cbn [scan_string].
    destruct (Ascii.eqb c "034"); [intros [= _ <-]; cbn; lia|].
    destruct (Ascii.eqb c "\").
    + destruct s1 as [|e s2]; [discriminate|]. cbn in Hn.
      destruct (Ascii.eqb e "u").
      * destruct s2 as [|h1 [|h2 [|h3 [|h4 s3]]]]; try discriminate.
        cbn in Hn.
        destruct (hex_digit h1); [|discriminate]. cbn.
        destruct (hex_digit h2); [|discriminate]. cbn.
        destruct (hex_digit h3); [|discriminate]. cbn.
        destruct (hex_digit h4); [|discriminate]. cbn.
        destruct (scan_string s3) as [[t' r']|] eqn:E; [|discriminate]. cbn.
        intros [= _ <-]. apply IH in E; lia.
      * destruct (unescape e); [|discriminate]. cbn.
        destruct (scan_string s2) as [[t' r']|] eqn:E; [|discriminate]. cbn.
        intros [= _ <-]. apply IH in E; lia.
    + destruct (N_of_ascii c <? 32)%N; [discriminate|].
      destruct (scan_string s1) as [[t' r']|] eqn:E; [|discriminate]. cbn.
      intros [= _ <-]. apply IH in E; lia.
Qed.

Lemma scan_string_lt (s t r : string) :
  scan_string s = Some (t, r) -> len r < len s.
Proof. apply (scan_string_lt_upto (len s)). lia. Qed.

Lemma strip_prefix_length (p s r : string) :
  strip_prefix p s = Some r -> len s = len p + len r.
Proof.
  revert s. induction p as [|a p IH]; intros s; cbn.
  - by intros [= <-].
  - destruct s as [|b s']; [discriminate|].
    destruct (Ascii.eqb a b); [|discriminate].
    intros H. apply IH in H. cbn. lia.
Qed.

Lemma skip_ws_cons (s : string) (c : ascii) (r : string) :
  skip_ws s = String c r -> len r < len s.
Proof. intros H. pose proof (skip_ws_le s) as Hle. rewrite H in Hle. cbn in Hle. lia. Qed.

Lemma parse_value_S fuel s :
  parse_value (S fuel) s = value_step (parse_elements fuel) (parse_members fuel) s.
Proof. reflexivity. Qed.

Lemma parse_elements_S fuel s acc :
  parse_elements (S fuel) s acc
  = elements_step (parse_value fuel) (parse_elements fuel) s acc.
Proof. reflexivity. Qed.

Lemma parse_members_S fuel s acc :
  parse_members (S fuel) s acc
  = members_step (parse_value fuel) (parse_members fuel) s acc.
Proof. reflexivity. Qed.

(** *** Every step consumes input *)

Lemma value_step_shrinks elements members :
  shrinks_acc elements -> shrinks_acc members ->
  shrinks (value_step elements members).
Proof.
  intros He Hm s v r. unfold value_step.
  destruct (skip_ws s) as [|c r0] eqn:Hs; [discriminate|].
  apply skip_ws_cons in Hs.
  destruct (Ascii.eqb c "{").
  { destruct (strip_prefix "}" (skip_ws r0)) as [r'|] eqn:E.
    - intros [= _ <-]. apply strip_prefix_length in E.
      pose proof (skip_ws_le r0). cbn in E. lia.
    - intros H. apply Hm in H. lia. }
  destruct (Ascii.eqb c "[").
  { destruct (strip_prefix "]" (skip_ws r0)) as [r'|] eqn:E.
    - intros [= _ <-]. apply strip_prefix_length in E.
      pose proof (skip_ws_le r0). cbn in E. lia.
    - intros H. apply He in H. lia. }
  destruct (Ascii.eqb c "034").
  { destruct (scan_string r0) as [[t r']|] eqn:E; [|discriminate]. cbn.
    intros [= _ <-]. apply scan_string_lt in E. lia. }
  destruct (strip_prefix "true" (String c r0)) as [r'|] eqn:Et.
  { intros [= _ <-]. apply strip_prefix_length in Et. cbn in Et. lia. }
  destruct (strip_prefix "false" (String c r0)) as [r'|] eqn:Ef.
  { intros [= _ <-]. apply strip_prefix_length in Ef. cbn in Ef. lia. }
  destruct (strip_prefix "null" (String c r0)) as [r'|] eqn:En.
  { intros [= _ <-]. apply strip_prefix_length in En. cbn in En. lia. }
  destruct (scan_number (String c r0)) as [[l r']|] eqn:E; [|discriminate]. cbn.
  intros [= _ <-]. apply scan_number_lt in E. cbn in E. lia.
Qed.

Lemma elements_step_shrinks value_of elements :
  shrinks value_of -> shrinks_acc elements ->
  shrinks_acc (elements_step value_of elements).
Proof.
  intros Hv He s acc v r. unfold elements_step.
  destruct (value_of s) as [[x r0]|] eqn:E; [|discriminate]. cbn.
  apply Hv in E.
  destruct (skip_ws r0) as [|c r1] eqn:Hs; [discriminate|].
  apply skip_ws_cons in Hs.
  destruct (Ascii.eqb c ",").
  { intros H. apply He in H. lia. }
  destruct (Ascii.eqb c "]"); [|discriminate].
  intros [= _ <-]. lia.
Qed.

Lemma members_step_shrinks value_of members :
  shrinks value_of -> shrinks_acc members ->
  shrinks_acc (members_step value_of members).
Proof.
  intros Hv Hm s acc v r. unfold members_step.
  destruct (skip_ws s) as [|q r0] eqn:Hs; [discriminate|].
  apply skip_ws_cons in Hs.
  destruct (Ascii.eqb q "034"); [|discriminate].
  destruct (scan_string r0) as [[k r1]|] eqn:Ek; [|discriminate]. cbn.
  apply scan_string_lt in Ek.
  destruct (skip_ws r1) as [|colon r2] eqn:Hs1; [discriminate|].
  apply skip_ws_cons in Hs1.
  destruct (Ascii.eqb colon ":"); [|discriminate].
  destruct (value_of r2) as [[x r3]|] eqn:Ev; [|discriminate]. cbn.
  apply Hv in Ev.
  destruct (skip_ws r3) as [|c r4] eqn:Hs3; [discriminate|].
  apply skip_ws_cons in Hs3.
  destruct (Ascii.eqb c ",").
  { intros H. apply Hm in H. lia. }
  destruct (Ascii.eqb c "}"); [|discriminate].
  intros [= _ <-]. lia.
Qed.

Lemma parsers_shrink (fuel : nat) :
  shrinks (parse_value fuel)
  /\ shrinks_acc (parse_elements fuel)
  /\ shrinks_acc (parse_members fuel).
Proof.
  induction fuel as [|fuel (IHv & IHe & IHm)].
  - repeat split; repeat intro; discriminate.
  - split; [|split].
    + intros s v r. rewrite parse_value_S. by apply value_step_shrinks.
    + intros s acc v r. rewrite parse_elements_S. by apply elements_step_shrinks.
    + intros s acc v r. rewrite parse_members_S. by apply members_step_shrinks.
Qed.

(** *** A step only looks at what the parsers do on shorter input *)

Lemma value_step_ext e1 e2 m1 m2 (s : string) :
  (forall r acc, len r < len s -> e1 r acc = e2 r acc) ->
  (forall r acc, len r < len s -> m1 r acc = m2 r acc) ->
  value_step e1 m1 s = value_step e2 m2 s.
Proof.
  intros He Hm. unfold value_step.
  destruct (skip_ws s) as [|c r0] eqn:Hs; [reflexivity|].
  apply skip_ws_cons in Hs.
  rewrite (He r0 [] Hs), (Hm r0 [] Hs). reflexivity.
Qed.

Lemma elements_step_ext v1 v2 e1 e2 (s : string) (acc : list value) :
  v1 s = v2 s ->
  (forall x r, v1 s = Some (x, r) -> len r < len s) ->
  (forall r acc, len r < len s -> e1 r acc = e2 r acc) ->
  elements_step v1 e1 s acc = elements_step v2 e2 s acc.
Proof.
  intros Hv Hshrink He. unfold elements_step. rewrite <- Hv.
  destruct (v1 s) as [[x r0]|] eqn:E; [|reflexivity]. cbn.
  specialize (Hshrink x r0 eq_refl).
  destruct (skip_ws r0) as [|c r1] eqn:Hs; [reflexivity|].
  apply skip_ws_cons in Hs.
  rewrite (He r1 (x :: acc)); [reflexivity | lia].
Qed.

Lemma members_step_ext v1 v2 m1 m2 (s : string) (acc : list (string * value)) :
  (forall r, len r < len s -> v1 r = v2 r) ->
  shrinks v1 ->
  (forall r acc, len r < len s -> m1 r acc = m2 r acc) ->
  members_step v1 m1 s acc = members_step v2 m2 s acc.
Proof.
  intros Hv Hshrink Hm. unfold members_step.
  destruct (skip_ws s) as [|q r0] eqn:Hs; [reflexivity|].
  apply skip_ws_cons in Hs.
  destruct (Ascii.eqb q "034"); [|reflexivity].
  destruct (scan_string r0) as [[k r1]|] eqn:Ek; [|reflexivity]. cbn.
  apply scan_string_lt in Ek.
  destruct (skip_ws r1) as [|colon r2] eqn:Hs1; [reflexivity|].
  apply skip_ws_cons in Hs1.
  destruct (Ascii.eqb colon ":"); [|reflexivity].
  rewrite <- (Hv r2) by lia.
  destruct (v1 r2) as [[x r3]|] eqn:Ev; [|reflexivity]. cbn.
  apply Hshrink in Ev.
  destruct (skip_ws r3) as [|c r4] eqn:Hs3; [reflexivity|].
  apply skip_ws_cons in Hs3.
  rewrite (Hm r4 ((k, x) :: acc)); [reflexivity | lia].
Qed.

(** *** Fuel beyond twice the length of the text changes nothing *)

Lemma fuel_irrelevant_upto (n : nat) :
  forall s, len s <= n ->
    (forall f1 f2, 2 * len s + 2 <= f1 -> 2 * len s + 2 <= f2 ->
                   parse_value f1 s = parse_value f2 s)
    /\ (forall f1 f2 acc, 2 * len s + 3 <= f1 -> 2 * len s + 3 <= f2 ->
                          parse_elements f1 s acc = parse_elements f2 s acc)
    /\ (forall f1 f2 acc, 2 * len s + 3 <= f1 -> 2 * len s + 3 <= f2 ->
                          parse_members f1 s acc = parse_members f2 s acc).
Proof.
  induction n as [n IH] using lt_wf_ind. intros s Hn.
  assert (Hshorter : forall r, len r < len s ->
            (forall f1 f2, 2 * len r + 2 <= f1 -> 2 * len r + 2 <= f2 ->
                           parse_value f1 r = parse_value f2 r)
            /\ (forall f1 f2 acc, 2 * len r + 3 <= f1 -> 2 * len r + 3 <= f2 ->
                                  parse_elements f1 r acc = parse_elements f2 r acc)
            /\ (forall f1 f2 acc, 2 * len r + 3 <= f1 -> 2 * len r + 3 <= f2 ->
                                  parse_members f1 r acc = parse_members f2 r acc)).
  { intros r Hr. apply (IH (len r)); lia. }
  assert (Hvalue : forall f1 f2, 2 * len s + 2 <= f1 -> 2 * len s + 2 <= f2 ->
                                 parse_value f1 s = parse_value f2 s).
  { intros [|f1] [|f2] H1 H2; try lia. rewrite !parse_value_S.
    apply value_step_ext; intros r acc Hr;
      destruct (Hshorter r Hr) as (_ & He & Hm); [apply He | apply Hm]; lia. }
  split; [exact Hvalue|]. split.
  - intros [|f1] [|f2] acc H1 H2; try lia. rewrite !parse_elements_S.
    apply elements_step_ext.
    + apply Hvalue; lia.
    + apply (proj1 (parsers_shrink f1)).
    + intros r acc' Hr. destruct (Hshorter r Hr) as (_ & He & _). apply He; lia.
  - intros [|f1] [|f2] acc H1 H2; try lia. rewrite !parse_members_S.
    apply members_step_ext.
    + intros r Hr. destruct (Hshorter r Hr) as (Hv & _). apply Hv; lia.
    + apply (proj1 (parsers_shrink f1)).
    + intros r acc' Hr. destruct (Hshorter r Hr) as (_ & _ & Hm). apply Hm; lia.
Qed.

(** The fuel that [JSON.parse] gives is enough for every text: with more
    fuel the answer is the same. *)
Theorem parse_fuel (text : string) (fuel : nat) :
  2 * len text + 2 <= fuel -> parse_with fuel text = parse text.
Proof.
  intros H. unfold parse, parse_with.
  destruct (fuel_irrelevant_upto (len text) text (le_n _)) as (Hv & _).
  rewrite (Hv fuel (2 * len text + 2)); [reflexivity | lia | lia].
Qed.

End JSONFacts.

(** ** The JSON reader on a few texts *)

Example parse_object :
  JSON.parse ("{ " +:+ dquote +:+ "VersionString" +:+ dquote +:+ ": "
                +:+ dquote +:+ "0.20.2" +:+ dquote +:+ ", "
                +:+ dquote +:+ "n" +:+ dquote +:+ ": [1, -2.5e3, true, null] }")
  = Some (JSON.Object [("VersionString", JSON.Str "0.20.2");
                       ("n", JSON.Array [JSON.Number "1"; JSON.Number "-2.5e3";
                                         JSON.Bool true; JSON.Null])]).
Proof. reflexivity. Qed.

Example parse_rejects_empty : JSON.parse "" = None.
Proof. reflexivity. Qed.

Example parse_rejects_open_brace : JSON.parse "{" = None.
Proof. reflexivity. Qed.

Example parse_rejects_trailing : JSON.parse "[1,]" = None /\ JSON.parse "1 2" = None.
Proof. split; reflexivity. Qed.


(** ** [executeCommand] *)

Module ExecuteCommand.
Import ArduinoCli Terms.

Section Facts.

Variable host : Host.

Lemma content_or_empty (content : string) :
  (if nonempty content then content else "") = content.
Proof. destruct content; reflexivity. Qed.

Lemma nonempty_false (s : string) : nonempty s = false <-> s = "".
Proof. destruct s; cbn; split; congruence. Qed.

Lemma nonempty_true (s : string) : nonempty s = true <-> s <> "".
Proof. destruct s; cbn; split; congruence. Qed.

Lemma truthy_string_nonempty (o : option string) (s : string) :
  truthy_string o = Some s -> nonempty s = true.
Proof.
  destruct o as [t|]; cbn; [|discriminate].
  destruct (nonempty t) eqn:E; [|discriminate]. by intros [= <-].
Qed.

(** Without a binary nothing is started. *)
Lemma unconfigured self commandCli args extra w :
  truthy_string (arduinCliBin (runOptions self)) = None ->
  executeCommand self commandCli args extra w = (Return not_informed, w).
Proof. intros H. unfold executeCommand. rewrite H. reflexivity. Qed.

(** With a binary, [spawnSync] is called exactly once; the call throws
    when the binary could not be started, and otherwise the result is
    read off what the subprocess printed. *)
Lemma configured self commandCli args extra w bin :
  truthy_string (arduinCliBin (runOptions self)) = Some bin ->
  let params := command_line self commandCli args extra in
  executeCommand self commandCli args extra w =
    (match next_output w bin params with
     | Exited _ out err => result_of extra out err
     | NotStarted => Throw TypeError
     end,
     snd (spawnSync bin params w)).
Proof.
  intros H params. unfold executeCommand. rewrite H.
  fold (command_line self commandCli args extra). fold params.
  unfold spawnSync. cbn [fst snd]. fold (next_output w bin params).
  destruct (next_output w bin params) as [status out err|]; cbn [stdout stderr];
    [|reflexivity].
  unfold result_of.
  destruct (nonempty out); cbn [negb]; [|reflexivity].
  destruct (bool_decide (extra !! 1%nat = Some "text")); [reflexivity|].
  destruct (JSON.parse out); reflexivity.
Qed.

(** [executeCommand] never touches the cache, and calls [spawnSync] at
    most once. *)
Lemma footprint self commandCli args extra w :
  let w' := snd (executeCommand self commandCli args extra w) in
  cache w' = cache w /\ subprocess w' = subprocess w /\
  (invocations w' = invocations w \/ invocations w' = S (invocations w)).
Proof.
  destruct (truthy_string (arduinCliBin (runOptions self))) as [bin|] eqn:H.
  - rewrite (configured _ _ _ _ _ _ H). cbn.
    repeat split; try reflexivity. right. unfold invocations. cbn.
    rewrite length_app. cbn. lia.
  - rewrite (unconfigured _ _ _ _ _ H). cbn. auto.
Qed.

(** The exceptions of [executeCommand]: a [TypeError] when the binary
    could not be started, a [SyntaxError] when what it printed was to be
    read as JSON and is not. *)
Lemma throws self commandCli args extra w e :
  fst (executeCommand self commandCli args extra w) = Throw e ->
  exists bin,
    truthy_string (arduinCliBin (runOptions self)) = Some bin
    /\ let command :=
         next_output w bin (command_line self commandCli args extra) in
       (e = TypeError /\ command = NotStarted)
       \/ (e = SyntaxError
           /\ exists text,
               stdout command = Some text /\ text <> ""
               /\ extra !! 1%nat <> Some "text" /\ JSON.parse text = None).
Proof.
  destruct (truthy_string (arduinCliBin (runOptions self))) as [bin|] eqn:H.
  - rewrite (configured _ _ _ _ _ _ H). cbn [fst]. intros Hthrow.
    exists bin. split; [reflexivity|]. cbn zeta.
    destruct (next_output w bin (command_line self commandCli args extra))
      as [status out err|]; [|left; split; congruence].
    right. unfold result_of in Hthrow.
    destruct (nonempty out) eqn:Hout; cbn [negb] in Hthrow; [|discriminate].
    case_bool_decide as Htext; [discriminate|].
    destruct (JSON.parse out) eqn:Hp; [discriminate|].
    split; [congruence|]. exists out. repeat split; try done.
    by apply nonempty_true.
  - rewrite (unconfigured _ _ _ _ _ H). discriminate.
Qed.

End Facts.
End ExecuteCommand.

Import ArduinoCli Terms.

(** C2.  A call of [executeCommand] made with a binary either returns a
    result whose [status] is [true] exactly when the subprocess left
    stderr empty and whose [reason] is stderr as it is, whatever the exit
    status and stdout were; or it throws: a [TypeError] when the binary
    could not be started, so that there are no streams, and a
    [SyntaxError] when a non-empty stdout was to be read as JSON and is
    not. *)
Theorem executeCommand_status_iff_stderr_empty
  (self : ArduinoCli) (commandCli : string) (args extra : list string)
  (w : World) (bin : string) :
  truthy_string (arduinCliBin (runOptions self)) = Some bin ->
  let command := next_output w bin (command_line self commandCli args extra) in
  match fst (executeCommand self commandCli args extra w) with
  | Return r =>
      (status r = true <-> stderr command = Some "")
      /\ stderr command = Some (reason r)
  | Throw e =>
      (e = TypeError /\ command = NotStarted)
      \/ (e = SyntaxError
          /\ exists text,
              stdout command = Some text /\ text <> ""
              /\ extra !! 1%nat <> Some "text" /\ JSON.parse text = None)
  end.
Proof.
  intros H command.
  destruct (fst (executeCommand self commandCli args extra w)) as [r|e] eqn:E.
  - rewrite (ExecuteCommand.configured _ _ _ _ _ _ H) in E. cbn [fst] in E.
    fold command in E.
    destruct command as [code out err|]; [|discriminate]. cbn [stderr].
    assert (Hr : status r = negb (nonempty err) /\ reason r = err).
    { unfold result_of in E.
      repeat match type of E with
             | context [if ?b then _ else _] => destruct b
             | context [match ?x with _ => _ end] => destruct x
             end; try discriminate; injection E as <-; split; reflexivity. }
    destruct Hr as [Hs ->]. split; [|reflexivity]. rewrite Hs, negb_true_iff.
    rewrite ExecuteCommand.nonempty_false. split; congruence.
  - destruct (ExecuteCommand.throws _ _ _ _ _ _ E) as (bin' & Hbin & Hthrow).
    rewrite H in Hbin. injection Hbin as <-. exact Hthrow.
Qed.

Lemma executeCommand_status_iff_stderr_empty_witness :
  truthy_string (arduinCliBin (runOptions Runs.project_client)) = Some Runs.cli_path
  /\ fst (executeCommand Runs.project_client "core" ["list"] FORMAT_JSON
            Runs.warning_world)
     = Return {| status := false; data := Some (JSON.Array []);
                 reason := "deprecated flag" |}
  /\ match fst (executeCommand Runs.project_client "core" ["list"] FORMAT_JSON
                  Runs.warning_world) with
     | Return r =>
         (status r = true <->
          stderr (next_output Runs.warning_world Runs.cli_path
                    (command_line Runs.project_client "core" ["list"] FORMAT_JSON))
          = Some "")
         /\ stderr (next_output Runs.warning_world Runs.cli_path
                      (command_line Runs.project_client "core" ["list"]
                         FORMAT_JSON))
            = Some (reason r)
     | Throw e =>
         (e = TypeError
          /\ next_output Runs.warning_world Runs.cli_path
               (command_line Runs.project_client "core" ["list"] FORMAT_JSON)
             = NotStarted)
         \/ (e = SyntaxError
             /\ exists text,
                 stdout (next_output Runs.warning_world Runs.cli_path
                           (command_line Runs.project_client "core" ["list"]
                              FORMAT_JSON)) = Some text
                 /\ text <> ""
                 /\ FORMAT_JSON !! 1%nat <> Some "text"
                 /\ JSON.parse text = None)
     end.
Proof.
  split; [reflexivity|]. split; [reflexivity|].
  apply (executeCommand_status_iff_stderr_empty Runs.project_client "core" ["list"]
           FORMAT_JSON Runs.warning_world Runs.cli_path).
  reflexivity.
Defined.

(** A binary that cannot be started gives no result at all, whatever the
    format. *)
Example executeCommand_not_started :
  fst (executeCommand Runs.project_client "core" ["update-index"] FORMAT_TEXT
         Runs.stuck_world) = Throw TypeError
  /\ fst (executeCommand Runs.project_client "core" ["list"] FORMAT_JSON
            Runs.stuck_world) = Throw TypeError.
Proof. split; reflexivity. Qed.

(** The sample client is the one [instance] constructs in each of the
    sample worlds where release 0.20.2 is installed. *)
Example project_client_constructed :
  Forall (fun w => fst (instance linux_host (Some Runs.project_options) (start w))
                   = Return 0
                   /\ heap (snd (instance linux_host (Some Runs.project_options)
                                   (start w))) = [Runs.project_client])
    [Runs.installed_world; Runs.two_lines_world; Runs.warning_world;
     Runs.chatty_world].
Proof. repeat constructor. Qed.

Example executeCommand_warning_run :
  fst (executeCommand Runs.project_client "core" ["list"] FORMAT_JSON Runs.warning_world)
  = Return {| status := false; data := Some (JSON.Array []);
              reason := "deprecated flag" |}.
Proof. reflexivity. Qed.

(** C5, as stated, fails.  Asked for text, with a subprocess that prints
    the two lines [a] and [b], [executeCommand] returns as [data] an
    object whose member [text] holds the whole of stdout in one piece:
    neither the list of the two lines nor an object around it. *)
Lemma executeCommand_text_counterexample :
  fst (executeCommand Runs.project_client "core" ["update-index"] FORMAT_TEXT
         Runs.two_lines_world)
  = Return {| status := true;
              data := Some (JSON.Object
                [("text", JSON.Array [JSON.Str ("a" +:+ Runs.LF +:+ "b")])]);
              reason := "" |}
  /\ spec_lines ("a" +:+ Runs.LF +:+ "b") = JSON.Array [JSON.Str "a"; JSON.Str "b"]
  /\ fst (executeCommand Runs.project_client "core" ["update-index"] FORMAT_TEXT
            Runs.two_lines_world)
     <> Return {| status := true;
                  data := Some (spec_lines ("a" +:+ Runs.LF +:+ "b"));
                  reason := "" |}
  /\ fst (executeCommand Runs.project_client "core" ["update-index"] FORMAT_TEXT
            Runs.two_lines_world)
     <> Return {| status := true;
                  data := Some (JSON.Object
                    [("text", spec_lines ("a" +:+ Runs.LF +:+ "b"))]);
                  reason := "" |}.
Proof.
  split; [reflexivity|]. split; [reflexivity|].
  split; vm_compute; discriminate.
Qed.

(** Asked for JSON, with a subprocess that prints a line that is not JSON,
    no result is returned at all. *)
Example executeCommand_json_throws :
  fst (executeCommand Runs.project_client "core" ["list"] FORMAT_JSON Runs.chatty_world)
  = Throw SyntaxError.
Proof. reflexivity. Qed.

(** C5, amended.  A call of [executeCommand] made with a binary that
    could be started returns a result unless stdout is non-empty, the
    format asked for is not text and stdout is not JSON, in which case it
    throws the [SyntaxError] of [JSON.parse]; when the binary could not
    be started it throws a [TypeError].  In a result, [data] is
    [undefined] exactly when stdout is empty; for a non-empty stdout it
    is, under the text format, the object whose only member [text] lists
    the pieces of stdout between carriage returns, and otherwise the JSON
    value that stdout parses to. *)
Theorem executeCommand_data
  (self : ArduinoCli) (commandCli : string) (args extra : list string)
  (w : World) (bin : string) :
  truthy_string (arduinCliBin (runOptions self)) = Some bin ->
  let command := next_output w bin (command_line self commandCli args extra) in
  match fst (executeCommand self commandCli args extra w) with
  | Return r =>
      exists out,
        stdout command = Some out
        /\ (data r = None <-> out = "")
        /\ (out <> "" ->
            data r = if bool_decide (extra !! 1%nat = Some "text")
                     then Some (text_data out)
                     else JSON.parse out)
  | Throw e =>
      (e = TypeError /\ command = NotStarted)
      \/ (e = SyntaxError
          /\ exists out,
              stdout command = Some out /\ out <> ""
              /\ extra !! 1%nat <> Some "text" /\ JSON.parse out = None)
  end.
Proof.
  intros H command.
  destruct (fst (executeCommand self commandCli args extra w)) as [r|e] eqn:E.
  - rewrite (ExecuteCommand.configured _ _ _ _ _ _ H) in E. cbn [fst] in E.
    fold command in E.
    destruct command as [code out err|]; [|discriminate]. cbn [stdout].
    exists out. split; [reflexivity|]. unfold result_of in E.
    destruct (nonempty out) eqn:Hout; cbn [negb] in E.
    + apply ExecuteCommand.nonempty_true in Hout.
      case_bool_decide as Htext.
      * injection E as <-. cbn [data].
        split; [split; [discriminate | done] | done].
      * destruct (JSON.parse out) eqn:Hp; [|discriminate].
        injection E as <-. cbn [data].
        split; [split; [discriminate | done] | done].
    + apply ExecuteCommand.nonempty_false in Hout. injection E as <-.
      cbn [data]. done.
  - destruct (ExecuteCommand.throws _ _ _ _ _ _ E) as (bin' & Hbin & Hthrow).
    rewrite H in Hbin. injection Hbin as <-. exact Hthrow.
Qed.

Lemma executeCommand_data_witness :
  truthy_string (arduinCliBin (runOptions Runs.project_client)) = Some Runs.cli_path
  /\ fst (executeCommand Runs.project_client "core" ["install"; "arduino:avr@1.8.6"]
            FORMAT_TEXT Runs.two_lines_world)
     = Return {| status := true;
                 data := Some (text_data ("a" +:+ Runs.LF +:+ "b"));
                 reason := "" |}
  /\ match fst (executeCommand Runs.project_client "core"
                  ["install"; "arduino:avr@1.8.6"] FORMAT_TEXT
                  Runs.two_lines_world) with
     | Return r =>
         exists out,
           stdout (next_output Runs.two_lines_world Runs.cli_path
                     (command_line Runs.project_client "core"
                        ["install"; "arduino:avr@1.8.6"] FORMAT_TEXT)) = Some out
           /\ (data r = None <-> out = "")
           /\ (out <> "" ->
               data r = if bool_decide (FORMAT_TEXT !! 1%nat = Some "text")
                        then Some (text_data out)
                        else JSON.parse out)
     | Throw e =>
         (e = TypeError
          /\ next_output Runs.two_lines_world Runs.cli_path
               (command_line Runs.project_client "core"
                  ["install"; "arduino:avr@1.8.6"] FORMAT_TEXT) = NotStarted)
         \/ (e = SyntaxError
             /\ exists out,
                 stdout (next_output Runs.two_lines_world Runs.cli_path
                           (command_line Runs.project_client "core"
                              ["install"; "arduino:avr@1.8.6"] FORMAT_TEXT))
                 = Some out
                 /\ out <> ""
                 /\ FORMAT_TEXT !! 1%nat <> Some "text"
                 /\ JSON.parse out = None)
     end.
Proof.
  split; [reflexivity|]. split; [reflexivity|].
  apply (executeCommand_data Runs.project_client "core" ["install"; "arduino:avr@1.8.6"]
           FORMAT_TEXT Runs.two_lines_world Runs.cli_path).
  reflexivity.
Defined.

(** C8, as stated, fails for [coreList].  The project's client lists the
    cores once, then checks the environment against a release that is not
    installed, which leaves it without a binary.  Asked for the cores
    again it answers from the cache, with a success and not with the
    failure of a client without a binary. *)
Lemma coreList_without_binary_counterexample :
  arduinCliBin (runOptions Runs.project_client) = Some Runs.cli_path
  /\ arduinCliBin (runOptions Runs.stale_client) = None
  /\ fst (coreList Runs.stale_client "" Runs.stale_world)
     = Return {| status := true; data := Some (JSON.Array []); reason := "" |}
  /\ fst (coreList Runs.stale_client "" Runs.stale_world) <> Return not_informed.
Proof.
  split; [reflexivity|]. split; [reflexivity|]. split; [reflexivity|].
  vm_compute. discriminate.
Qed.

(** C8, amended.  While no binary is known, [executeCommand] returns the
    failure ["Arduino-CLI not informed"] and leaves the world as it is, so
    no subprocess is started; the wrappers that only call it return that
    failure too ([coreUpdateIndex] after clearing the cache).  [coreList]
    and [boardList] start no subprocess either, but they answer from the
    cache when it holds an entry for their signature, and return (and
    cache) that failure only when it holds none. *)
Theorem calls_without_binary (self : ArduinoCli) (w : World) :
  truthy_string (arduinCliBin (runOptions self)) = None ->
  (forall commandCli args extra,
      executeCommand self commandCli args extra w = (Return not_informed, w))
  /\ (forall destFolder, configInitDir self destFolder w = (Return not_informed, w))
  /\ (forall destFile, configInitFile self destFile w = (Return not_informed, w))
  /\ coreDownload self w = (Return not_informed, w)
  /\ (forall url, configAdd3rdPartyUrl self url w = (Return not_informed, w))
  /\ (forall url, configRemove3thPartyUrl self url w = (Return not_informed, w))
  /\ (forall platform version,
        coreInstall self platform version w = (Return not_informed, w))
  /\ coreUpdateIndex self w = (Return not_informed, ACLCache.clear w)
  /\ (forall params,
        coreList self params w =
          match ACLCache.load (ACLCache.getCacheId "coreList" [params]) w with
          | Some cached => (Return cached, w)
          | None =>
              (Return not_informed,
               ACLCache.write (ACLCache.getCacheId "coreList" [params])
                 not_informed w)
          end
        /\ spawned (snd (coreList self params w)) = spawned w)
  /\ boardList self w =
       match ACLCache.load (ACLCache.getCacheId "boardList" []) w with
       | Some cached => (Return cached, w)
       | None =>
           (Return not_informed,
            ACLCache.write (ACLCache.getCacheId "boardList" []) not_informed w)
       end
  /\ spawned (snd (boardList self w)) = spawned w.
Proof.
  intros H.
  pose proof (fun c a e w' => ExecuteCommand.unconfigured self c a e w' H) as E.
  repeat split; intros;
    unfold configInitDir, configInitFile, coreDownload, configAdd3rdPartyUrl,
      configRemove3thPartyUrl, coreInstall, coreUpdateIndex, coreList, boardList;
    rewrite ?E; try reflexivity;
    match goal with
    | |- context [ACLCache.load ?i ?w'] => destruct (ACLCache.load i w'); reflexivity
    end.
Qed.

Lemma calls_without_binary_witness :
  truthy_string (arduinCliBin (runOptions Runs.stale_client)) = None
  /\ coreList Runs.stale_client "" Runs.stale_world =
       match ACLCache.load (ACLCache.getCacheId "coreList" [""]) Runs.stale_world with
       | Some cached => (Return cached, Runs.stale_world)
       | None =>
           (Return not_informed,
            ACLCache.write (ACLCache.getCacheId "coreList" [""]) not_informed
              Runs.stale_world)
       end
  /\ coreInstall Runs.stale_client "arduino:avr" "1.8.6" Runs.stale_world
     = (Return not_informed, Runs.stale_world).
Proof.
  assert (H : truthy_string (arduinCliBin (runOptions Runs.stale_client)) = None)
    by reflexivity.
  split; [exact H|].
  destruct (calls_without_binary Runs.stale_client Runs.stale_world H)
    as (_ & _ & _ & _ & _ & _ & Hinstall & _ & Hlist & _).
  split; [exact (proj1 (Hlist "")) | exact (Hinstall "arduino:avr" "1.8.6")].
Defined.

(** ** The getter [config] *)

(** C1, as stated, fails in its second case.  The project file exists and
    holds a single brace, which [JSON.parse] rejects; the configuration
    the client loads is [undefined], not the default one. *)
Lemma config_malformed_counterexample :
  truthy_string (configFile (runOptions Runs.fresh_client)) = Some Runs.project_file
  /\ existsSync Runs.broken_world Runs.project_file = true
  /\ readFileSync Runs.broken_world Runs.project_file = Some "{"
  /\ JSON.parse "{" = None
  /\ fst (config linux_host Runs.fresh_client Runs.broken_world) = None
  /\ fst (config linux_host Runs.fresh_client Runs.broken_world)
     <> Some (CONFIG_SERVER_DEFAULT linux_host).
Proof.
  repeat split; try reflexivity. vm_compute. discriminate.
Qed.

(** The client constructed over that file has no configuration and, for
    lack of one, no binary. *)
Example constructed_over_malformed_file :
  let runOptions := normalizeOptions linux_host (Some Runs.project_options) in
  exists self,
    new_ArduinoCli linux_host runOptions
      (normalizeArguments linux_host runOptions) Runs.broken_world = Return self
    /\ _config self = None /\ arduinCliBin (ArduinoCli.runOptions self) = None.
Proof. eexists. repeat split. Qed.

(** C1, amended.  When the client holds no configuration yet, the getter
    loads one.  If the path of the config file is unset or no file exists
    there, what it loads and returns is [CONFIG_SERVER_DEFAULT].  If the
    file is there but its content is not JSON, the exception is caught
    and nothing is loaded: the getter returns what the client held, which
    is [undefined] on a new client, and the client is unchanged. *)
Theorem config_fallback (host : Host) (self : ArduinoCli) (w : World) :
  config_missing self = true ->
  ((truthy_string (configFile (runOptions self)) = None
    \/ exists file, truthy_string (configFile (runOptions self)) = Some file
                    /\ existsSync w file = false) ->
   config host self w
   = (Some (CONFIG_SERVER_DEFAULT host),
      with_config self (Some (CONFIG_SERVER_DEFAULT host))))
  /\ (forall file content,
        truthy_string (configFile (runOptions self)) = Some file ->
        readFileSync w file = Some content ->
        JSON.parse content = None ->
        config host self w = (_config self, self)
        /\ (_config self = None -> fst (config host self w) = None)).
Proof.
  intros Hmissing. split.
  - intros [Hunset | (file & Hfile & Hexists)]; unfold config;
      rewrite Hmissing.
    + rewrite Hunset. reflexivity.
    + rewrite Hfile, Hexists. reflexivity.
  - intros file content Hfile Hread Hparse.
    assert (Hexists : existsSync w file = true).
    { unfold existsSync. unfold readFileSync in Hread.
      rewrite (ExecuteCommand.truthy_string_nonempty _ _ Hfile).
      destruct (fs w !! file); [reflexivity | discriminate]. }
    assert (E : config host self w = (_config self, self)).
    { unfold config. rewrite Hmissing, Hfile, Hexists, Hread.
      rewrite ExecuteCommand.content_or_empty, Hparse. reflexivity. }
    split; [exact E|]. intros Hnone. rewrite E. exact Hnone.
Qed.

Lemma config_fallback_witness :
  config_missing Runs.fresh_client = true
  /\ config linux_host Runs.fresh_client Runs.installed_world
     = (Some (JSON.Object [("cliVersion", JSON.Str "0.20.2")]),
        with_config Runs.fresh_client
          (Some (JSON.Object [("cliVersion", JSON.Str "0.20.2")])))
  /\ config linux_host Runs.fresh_client Runs.empty_world
     = (Some (CONFIG_SERVER_DEFAULT linux_host),
        with_config Runs.fresh_client (Some (CONFIG_SERVER_DEFAULT linux_host)))
  /\ config linux_host Runs.fresh_client Runs.broken_world
     = (_config Runs.fresh_client, Runs.fresh_client).
Proof.
  assert (H : config_missing Runs.fresh_client = true) by reflexivity.
  split; [exact H|]. split; [reflexivity|]. split.
  - apply (proj1 (config_fallback linux_host Runs.fresh_client
                    Runs.empty_world H)).
    right. exists Runs.project_file. split; reflexivity.
  - apply (proj2 (config_fallback linux_host Runs.fresh_client
                    Runs.broken_world H) Runs.project_file "{");
      reflexivity.
Defined.

(** ** The argument list *)

Lemma config_keeps_runArguments (host : Host) (self : ArduinoCli) (w : World) :
  runArguments (snd (config host self w)) = runArguments self.
Proof.
  unfold config. cbn [snd].
  repeat match goal with
         | |- context [match ?x with _ => _ end] => destruct x
         end; reflexivity.
Qed.

(** [findExecutable] throws nothing but the [TypeError] of [path.join]. *)
Lemma findExecutable_any_throws (host : Host) (release : option JSON.value)
  (w : World) (e : JsError) :
  findExecutable_any host release w = Throw e -> e = TypeError.
Proof.
  unfold findExecutable_any.
  repeat match goal with
         | |- context [match ?x with _ => _ end] => destruct x
         | |- context [if ?b then _ else _] => destruct b
         end; congruence.
Qed.

Lemma new_keeps_runArguments (host : Host) (o : ArduinoCliOptions)
  (arguments : list string) (w : World) :
  match new_ArduinoCli host o arguments w with
  | Return self => runArguments self = arguments
  | Throw e => e = TypeError
  end.
Proof.
  unfold new_ArduinoCli.
  pose proof (config_keeps_runArguments host
    {| runArguments := arguments; runOptions := o; _config := None |} w) as H.
  destruct (config host _ w) as [c self']. cbn [snd] in H.
  destruct c as [c|]; [destruct (JSON.truthy c)|]; try exact H.
  destruct (findExecutable_any host (cliVersion c) w) as [bin|e] eqn:E;
    [exact H | exact (findExecutable_any_throws _ _ _ _ E)].
Qed.



Example normalizeArguments_all_groups :
  normalizeArguments linux_host
    {| workspaceFolder := None; configFile := Some "/ws/.vscode/aclabarduino.json";
       debug := true; verbose := true; logFile := Some (LogPath "/ws/cli.log");
       arduinCliBin := None |}
  = ["--config-file"; "/ws/.vscode/arduino-cli.yaml";
     "--log-file"; "/ws/cli.log"; "--log-level"; "debug"; "--verbose"].
Proof. reflexivity. Qed.

(** ** Severities *)

(** C3.  [codeToSeverity] depends on the first character of the code
    only, through the table E, W, I, H of the specification; every code
    of the enum [Error] gets the severity [Error], every code of the enum
    [Information] the severity [Information], and no code of either enum
    is left without a severity; that severity is the one a diagnostic is
    created with. *)
Theorem codeToSeverity_total_and_correct :
  (forall first rest,
      ArduinoDiagnostic.codeToSeverity (String first rest) = severity_of_first first)
  /\ (forall e : ArduinoDiagnostic.Error,
        ArduinoDiagnostic.codeToSeverity (ArduinoDiagnostic.Error_value e)
        = Some DiagnosticSeverity.Error)
  /\ (forall i : ArduinoDiagnostic.Information,
        ArduinoDiagnostic.codeToSeverity (ArduinoDiagnostic.Information_value i)
        = Some DiagnosticSeverity.Information)
  /\ (forall c : ArduinoDiagnostic.Code,
        ArduinoDiagnostic.codeToSeverity (ArduinoDiagnostic.Code_value c) <> None)
  /\ (forall textDocument_uri documentSymbol (c : ArduinoDiagnostic.Code),
        ArduinoDiagnostic.severity
          (ArduinoDiagnostic.createDiagnostic textDocument_uri documentSymbol c)
        = severity_of_first
            match c with
            | ArduinoDiagnostic.OfError _ => "E"%char
            | ArduinoDiagnostic.OfInformation _ => "I"%char
            end).
Proof.
  split; [|split; [|split; [|split]]].
  - intros first rest.
    destruct first as [[] [] [] [] [] [] [] []]; reflexivity.
  - intros []; reflexivity.
  - intros []; reflexivity.
  - intros [[]|[]]; discriminate.
  - intros uri symbol [[]|[]]; reflexivity.
Qed.

(** ** Tree items *)

(** C10.  An entry whose status is [ok] is shown with the context value
    [aclProject], the file icon, a collapsed state and the command that
    opens the configuration.  Every other entry, an entry in error
    included, is shown with the context value [candidateProject], the
    icon of a missing file and no collapsible state, and with another
    command. *)
Theorem ArduinoTreeItem_by_status (dirname : string)
  (path_resolve : list string -> string)
  (status_text : Explorer.ArduinoEntryStatus -> string)
  (entry : Explorer.IArduinoEntry) :
  let item := Explorer.ArduinoTreeItem dirname path_resolve status_text entry in
  match Explorer.status entry with
  | Explorer.ok =>
      Explorer.contextValue item = "aclProject"
      /\ Explorer.iconPath item
         = {| Explorer.light := Explorer.iconFileLight dirname path_resolve;
              Explorer.dark := Explorer.iconFileDark dirname path_resolve |}
      /\ Explorer.collapsibleState item = Explorer.Collapsed
      /\ Explorer.command item
         = {| Explorer.command_id := "arduinoExplorer.openConfiguration";
              Explorer.title := "Open";
              Explorer.arguments := [Explorer.project entry] |}
  | _ =>
      Explorer.contextValue item = "candidateProject"
      /\ Explorer.iconPath item
         = {| Explorer.light := Explorer.iconFileNotExistLight dirname path_resolve;
              Explorer.dark := Explorer.iconFileNotExistDark dirname path_resolve |}
      /\ Explorer.collapsibleState item = Explorer.None_
      /\ Explorer.contextValue item <> "aclProject"
      /\ Explorer.collapsibleState item <> Explorer.Collapsed
      /\ Explorer.command_id (Explorer.command item)
         <> "arduinoExplorer.openConfiguration"
  end.
Proof.
  unfold Explorer.ArduinoTreeItem. cbn.
  destruct (Explorer.status entry); cbn; repeat split; discriminate.
Qed.

(** ** The cache *)

Module Cache.
Import Calls.

Lemma load_write (cacheId : string) (r : IArduinoExec) (w : World) :
  ACLCache.load cacheId (ACLCache.write cacheId r w) = Some r.
Proof. unfold ACLCache.load, ACLCache.write. cbn. apply lookup_insert_eq. Qed.

Lemma load_clear (cacheId : string) (w : World) :
  ACLCache.load cacheId (ACLCache.clear w) = None.
Proof. unfold ACLCache.load, ACLCache.clear. cbn. apply lookup_empty. Qed.

Lemma write_invocations (cacheId : string) (r : IArduinoExec) (w : World) :
  invocations (ACLCache.write cacheId r w) = invocations w.
Proof. reflexivity. Qed.

Lemma coreList_through_cache (self : ArduinoCli) (params : string) (w : World) :
  coreList self params w
  = through_cache (ACLCache.getCacheId "coreList" [params])
      (executeCommand self "core" ["list"; params] FORMAT_JSON) w.
Proof. reflexivity. Qed.

Lemma boardList_through_cache (self : ArduinoCli) (w : World) :
  boardList self w
  = through_cache (ACLCache.getCacheId "boardList" [])
      (executeCommand self "board" ["list"] FORMAT_JSON) w.
Proof. reflexivity. Qed.

Section ThroughCache.

Variable cacheId : string.
Variable run : World -> completion IArduinoExec * World.

(** A hit costs nothing and changes nothing. *)
Lemma hit (r : IArduinoExec) (w : World) :
  ACLCache.load cacheId w = Some r ->
  through_cache cacheId run w = (Return r, w).
Proof. intros H. unfold through_cache. rewrite H. reflexivity. Qed.

(** Whatever is returned is in the cache afterwards. *)
Lemma returned_is_cached (r : IArduinoExec) (w w1 : World) :
  through_cache cacheId run w = (Return r, w1) ->
  ACLCache.load cacheId w1 = Some r.
Proof.
  unfold through_cache.
  destruct (ACLCache.load cacheId w) as [r0|] eqn:Hload.
  - intros [= <- <-]. exact Hload.
  - destruct (run w) as [[r0|e] w0]; intros [= <- <-]. apply load_write.
Qed.

(** What is thrown comes from [run], on a miss, and leaves the cache
    alone if [run] does. *)
Lemma thrown (e : JsError) (w w1 : World) :
  through_cache cacheId run w = (Throw e, w1) ->
  ACLCache.load cacheId w = None /\ run w = (Throw e, w1).
Proof.
  unfold through_cache.
  destruct (ACLCache.load cacheId w) as [r0|]; [discriminate|].
  destruct (run w) as [[r0|e0] w0]; intros [= <- <-]. done.
Qed.

(** On a miss, what [run] returns is returned and written. *)
Lemma miss (r : IArduinoExec) (w w' : World) :
  ACLCache.load cacheId w = None ->
  run w = (Return r, w') ->
  through_cache cacheId run w = (Return r, ACLCache.write cacheId r w').
Proof. intros Hload Hrun. unfold through_cache. rewrite Hload, Hrun. reflexivity. Qed.

(** A call starts the subprocesses that [run] starts, or none. *)
Lemma invocations_bound (w : World) :
  invocations (snd (through_cache cacheId run w)) = invocations w
  \/ invocations (snd (through_cache cacheId run w)) = invocations (snd (run w)).
Proof.
  unfold through_cache.
  destruct (ACLCache.load cacheId w); [left; reflexivity|].
  destruct (run w) as [[r0|e] w0]; right; reflexivity.
Qed.

Lemma again_hit (r : IArduinoExec) (w : World) (n : nat) :
  ACLCache.load cacheId w = Some r ->
  again n (through_cache cacheId run) w = (replicate n (Return r), w).
Proof.
  intros H. induction n as [|n IH]; [reflexivity|].
  cbn [again]. rewrite (hit r w H), IH. reflexivity.
Qed.

End ThroughCache.

Lemma executeCommand_invocations self commandCli args extra w :
  invocations (snd (executeCommand self commandCli args extra w)) <= S (invocations w).
Proof.
  destruct (ExecuteCommand.footprint self commandCli args extra w)
    as (_ & _ & [-> | ->]); lia.
Qed.

Lemma through_cache_at_most_once cacheId self commandCli args extra w :
  invocations (snd (through_cache cacheId
                      (executeCommand self commandCli args extra) w))
  <= S (invocations w).
Proof.
  destruct (invocations_bound cacheId (executeCommand self commandCli args extra) w)
    as [-> | ->]; [lia | apply executeCommand_invocations].
Qed.

End Cache.

(** C4, as stated, fails.  With a binary that prints a line that is not
    JSON, [coreList] throws before anything is written to the cache; the
    second call with the same argument starts the binary again and throws
    again.  No result is returned, and the CLI has run twice. *)
Lemma coreList_twice_counterexample :
  fst (coreList Runs.project_client "" Runs.chatty_world) = Throw SyntaxError
  /\ fst (coreList Runs.project_client ""
            (snd (coreList Runs.project_client "" Runs.chatty_world)))
     = Throw SyntaxError
  /\ invocations Runs.chatty_world = 0
  /\ invocations
       (snd (coreList Runs.project_client ""
               (snd (coreList Runs.project_client "" Runs.chatty_world))))
     = 2.
Proof. repeat split; reflexivity. Qed.

(** C4, amended.  Whenever a call of [coreList], or of [boardList],
    returns a result, the next call with the same arguments returns the
    same result from the cache entry of that signature, and leaves the
    world as it is: over the two calls the CLI has run at most once.
    When the call throws instead, it was a miss, the exception is the
    one of the command, and the cache is as it was: nothing is cached.
    [coreUpdateIndex] empties the cache and runs its command in the
    emptied cache, which is still empty afterwards. *)
Theorem cache_idempotent_and_cleared (self : ArduinoCli) (w : World) :
  (forall params r w1,
      coreList self params w = (Return r, w1) ->
      ACLCache.load (ACLCache.getCacheId "coreList" [params]) w1 = Some r
      /\ coreList self params w1 = (Return r, w1)
      /\ invocations w1 <= S (invocations w))
  /\ (forall r w1,
        boardList self w = (Return r, w1) ->
        ACLCache.load (ACLCache.getCacheId "boardList" []) w1 = Some r
        /\ boardList self w1 = (Return r, w1)
        /\ invocations w1 <= S (invocations w))
  /\ (forall params e w1,
        coreList self params w = (Throw e, w1) ->
        ACLCache.load (ACLCache.getCacheId "coreList" [params]) w = None
        /\ executeCommand self "core" ["list"; params] FORMAT_JSON w = (Throw e, w1)
        /\ cache w1 = cache w
        /\ ACLCache.load (ACLCache.getCacheId "coreList" [params]) w1 = None)
  /\ (forall e w1,
        boardList self w = (Throw e, w1) ->
        ACLCache.load (ACLCache.getCacheId "boardList" []) w = None
        /\ executeCommand self "board" ["list"] FORMAT_JSON w = (Throw e, w1)
        /\ cache w1 = cache w
        /\ ACLCache.load (ACLCache.getCacheId "boardList" []) w1 = None)
  /\ coreUpdateIndex self w
     = executeCommand self "core" ["update-index"] FORMAT_TEXT (ACLCache.clear w)
  /\ cache (ACLCache.clear w) = ∅
  /\ cache (snd (coreUpdateIndex self w)) = ∅.
Proof.
  assert (Hthrown : forall cacheId commandCli args e w1,
            Calls.through_cache cacheId
              (executeCommand self commandCli args FORMAT_JSON) w = (Throw e, w1) ->
            ACLCache.load cacheId w = None
            /\ executeCommand self commandCli args FORMAT_JSON w = (Throw e, w1)
            /\ cache w1 = cache w
            /\ ACLCache.load cacheId w1 = None).
  { intros cacheId commandCli args e w1 H.
    destruct (Cache.thrown _ _ _ _ _ H) as [Hload Hrun].
    pose proof (ExecuteCommand.footprint self commandCli args FORMAT_JSON w)
      as (Hcache & _).
    rewrite Hrun in Hcache. cbn [snd] in Hcache.
    repeat split; try assumption.
    unfold ACLCache.load in *. by rewrite Hcache. }
  split; [|split; [|split; [|split; [|split; [|split]]]]].
  - intros params r w1 H. rewrite Cache.coreList_through_cache in H.
    pose proof (Cache.returned_is_cached _ _ _ _ _ H) as Hload.
    split; [exact Hload|]. split.
    + rewrite Cache.coreList_through_cache. by apply Cache.hit.
    + pose proof (Cache.through_cache_at_most_once
                    (ACLCache.getCacheId "coreList" [params]) self "core"
                    ["list"; params] FORMAT_JSON w) as Hle.
      rewrite H in Hle. exact Hle.
  - intros r w1 H. rewrite Cache.boardList_through_cache in H.
    pose proof (Cache.returned_is_cached _ _ _ _ _ H) as Hload.
    split; [exact Hload|]. split.
    + rewrite Cache.boardList_through_cache. by apply Cache.hit.
    + pose proof (Cache.through_cache_at_most_once
                    (ACLCache.getCacheId "boardList" []) self "board"
                    ["list"] FORMAT_JSON w) as Hle.
      rewrite H in Hle. exact Hle.
  - intros params e w1 H. rewrite Cache.coreList_through_cache in H.
    exact (Hthrown _ _ _ _ _ H).
  - intros e w1 H. rewrite Cache.boardList_through_cache in H.
    exact (Hthrown _ _ _ _ _ H).
  - reflexivity.
  - reflexivity.
  - unfold coreUpdateIndex.
    destruct (ExecuteCommand.footprint self "core" ["update-index"] FORMAT_TEXT
                (ACLCache.clear w)) as (-> & _). reflexivity.
Qed.

Lemma cache_idempotent_and_cleared_witness :
  coreList Runs.project_client "" Runs.installed_world
  = (Return {| status := true; data := Some (JSON.Array []); reason := "" |},
     Runs.warm_world)
  /\ (coreList Runs.project_client "" Runs.warm_world
      = (Return {| status := true; data := Some (JSON.Array []); reason := "" |},
         Runs.warm_world)
      /\ invocations Runs.warm_world <= S (invocations Runs.installed_world))
  /\ coreList Runs.project_client "" Runs.chatty_world
     = (Throw SyntaxError, snd (coreList Runs.project_client "" Runs.chatty_world))
  /\ cache (snd (coreList Runs.project_client "" Runs.chatty_world))
     = cache Runs.chatty_world
  /\ boardList Runs.project_client Runs.stuck_world
     = (Throw TypeError, snd (boardList Runs.project_client Runs.stuck_world))
  /\ cache (snd (boardList Runs.project_client Runs.stuck_world))
     = cache Runs.stuck_world.
Proof.
  assert (H : coreList Runs.project_client "" Runs.installed_world
              = (Return {| status := true; data := Some (JSON.Array []);
                           reason := "" |}, Runs.warm_world)) by reflexivity.
  assert (Hc : coreList Runs.project_client "" Runs.chatty_world
               = (Throw SyntaxError,
                  snd (coreList Runs.project_client "" Runs.chatty_world)))
    by reflexivity.
  assert (Hb : boardList Runs.project_client Runs.stuck_world
               = (Throw TypeError,
                  snd (boardList Runs.project_client Runs.stuck_world)))
    by reflexivity.
  split; [exact H|]. split.
  - exact (proj2 (proj1 (cache_idempotent_and_cleared Runs.project_client
                           Runs.installed_world) "" _ _ H)).
  - split; [exact Hc|]. split.
    + destruct (cache_idempotent_and_cleared Runs.project_client Runs.chatty_world)
        as (_ & _ & Hthrow & _).
      exact (proj1 (proj2 (proj2 (Hthrow "" _ _ Hc)))).
    + split; [exact Hb|].
      destruct (cache_idempotent_and_cleared Runs.project_client Runs.stuck_world)
        as (_ & _ & _ & Hthrow & _).
      exact (proj1 (proj2 (proj2 (Hthrow _ _ Hb)))).
Defined.

(** C9.  On a miss, [coreList] and [boardList] run their command and,
    whatever result it returns, a failure included, return that result
    and write it to the cache under the signature of the call.  So
    whatever they return is in the cache afterwards; and as long as the
    cache holds a result for that signature, every call with it, however
    many in a row, returns that result and leaves the world as it is, so
    that no subprocess is started.  Clearing the cache removes the
    entry. *)
Theorem failures_are_cached (self : ArduinoCli) (w : World) :
  (forall params r w1,
      coreList self params w = (Return r, w1) ->
      ACLCache.load (ACLCache.getCacheId "coreList" [params]) w1 = Some r)
  /\ (forall params r n,
        ACLCache.load (ACLCache.getCacheId "coreList" [params]) w = Some r ->
        coreList self params w = (Return r, w)
        /\ Calls.again n (coreList self params) w = (replicate n (Return r), w))
  /\ (forall r w1,
        boardList self w = (Return r, w1) ->
        ACLCache.load (ACLCache.getCacheId "boardList" []) w1 = Some r)
  /\ (forall r n,
        ACLCache.load (ACLCache.getCacheId "boardList" []) w = Some r ->
        boardList self w = (Return r, w)
        /\ Calls.again n (boardList self) w = (replicate n (Return r), w))
  /\ (forall cacheId, ACLCache.load cacheId (ACLCache.clear w) = None)
  /\ (forall params r w',
        ACLCache.load (ACLCache.getCacheId "coreList" [params]) w = None ->
        executeCommand self "core" ["list"; params] FORMAT_JSON w = (Return r, w') ->
        coreList self params w
        = (Return r,
           ACLCache.write (ACLCache.getCacheId "coreList" [params]) r w')
        /\ cache (snd (coreList self params w))
           = <[ACLCache.getCacheId "coreList" [params] := r]> (cache w))
  /\ (forall r w',
        ACLCache.load (ACLCache.getCacheId "boardList" []) w = None ->
        executeCommand self "board" ["list"] FORMAT_JSON w = (Return r, w') ->
        boardList self w
        = (Return r, ACLCache.write (ACLCache.getCacheId "boardList" []) r w')
        /\ cache (snd (boardList self w))
           = <[ACLCache.getCacheId "boardList" [] := r]> (cache w)).
Proof.
  assert (Hmiss : forall cacheId commandCli args r w',
            ACLCache.load cacheId w = None ->
            executeCommand self commandCli args FORMAT_JSON w = (Return r, w') ->
            Calls.through_cache cacheId
              (executeCommand self commandCli args FORMAT_JSON) w
            = (Return r, ACLCache.write cacheId r w')
            /\ cache (snd (Calls.through_cache cacheId
                             (executeCommand self commandCli args FORMAT_JSON) w))
               = <[cacheId := r]> (cache w)).
  { intros cacheId commandCli args r w' Hload Hrun.
    rewrite (Cache.miss _ _ _ _ _ Hload Hrun). split; [reflexivity|].
    pose proof (ExecuteCommand.footprint self commandCli args FORMAT_JSON w)
      as (Hcache & _).
    rewrite Hrun in Hcache. cbn [snd] in Hcache. cbn. by rewrite Hcache. }
  split; [|split; [|split; [|split; [|split; [|split]]]]].
  - intros params r w1 H. rewrite Cache.coreList_through_cache in H.
    exact (Cache.returned_is_cached _ _ _ _ _ H).
  - intros params r n H. split.
    + rewrite Cache.coreList_through_cache. by apply Cache.hit.
    + exact (Cache.again_hit _ _ r w n H).
  - intros r w1 H. rewrite Cache.boardList_through_cache in H.
    exact (Cache.returned_is_cached _ _ _ _ _ H).
  - intros r n H. split.
    + rewrite Cache.boardList_through_cache. by apply Cache.hit.
    + exact (Cache.again_hit _ _ r w n H).
  - intros cacheId. apply Cache.load_clear.
  - intros params r w' Hload Hrun. rewrite Cache.coreList_through_cache.
    exact (Hmiss _ _ _ _ _ Hload Hrun).
  - intros r w' Hload Hrun. rewrite Cache.boardList_through_cache.
    exact (Hmiss _ _ _ _ _ Hload Hrun).
Qed.

Lemma failures_are_cached_witness :
  coreList Runs.project_client "" Runs.warning_world
  = (Return {| status := false; data := Some (JSON.Array []);
               reason := "deprecated flag" |}, Runs.complained_world)
  /\ ACLCache.load (ACLCache.getCacheId "coreList" [""]) Runs.complained_world
     = Some {| status := false; data := Some (JSON.Array []);
               reason := "deprecated flag" |}
  /\ Calls.again 3 (coreList Runs.project_client "") Runs.complained_world
     = (replicate 3 (Return {| status := false; data := Some (JSON.Array []);
                               reason := "deprecated flag" |}),
        Runs.complained_world)
  /\ invocations Runs.complained_world = 1
  /\ ACLCache.load (ACLCache.getCacheId "boardList" []) Runs.warning_world = None
  /\ boardList Runs.project_client Runs.warning_world
     = (Return {| status := false; data := Some (JSON.Array []);
                  reason := "deprecated flag" |},
        ACLCache.write (ACLCache.getCacheId "boardList" [])
          {| status := false; data := Some (JSON.Array []);
             reason := "deprecated flag" |}
          (snd (executeCommand Runs.project_client "board" ["list"] FORMAT_JSON
                  Runs.warning_world)))
  /\ ACLCache.load (ACLCache.getCacheId "boardList" [])
       Runs.complained_boards_world
     = Some {| status := false; data := Some (JSON.Array []);
               reason := "deprecated flag" |}
  /\ Calls.again 2 (boardList Runs.project_client) Runs.complained_boards_world
     = (replicate 2 (Return {| status := false; data := Some (JSON.Array []);
                               reason := "deprecated flag" |}),
        Runs.complained_boards_world)
  /\ invocations Runs.complained_boards_world = 1.
Proof.
  assert (H : coreList Runs.project_client "" Runs.warning_world
              = (Return {| status := false; data := Some (JSON.Array []);
                           reason := "deprecated flag" |}, Runs.complained_world))
    by reflexivity.
  pose proof (proj1 (failures_are_cached Runs.project_client Runs.warning_world)
                "" _ _ H) as Hload.
  assert (Hmiss : ACLCache.load (ACLCache.getCacheId "boardList" [])
                    Runs.warning_world = None) by reflexivity.
  assert (Hrun : executeCommand Runs.project_client "board" ["list"] FORMAT_JSON
                   Runs.warning_world
                 = (Return {| status := false; data := Some (JSON.Array []);
                              reason := "deprecated flag" |},
                    snd (executeCommand Runs.project_client "board" ["list"]
                           FORMAT_JSON Runs.warning_world))) by reflexivity.
  destruct (failures_are_cached Runs.project_client Runs.warning_world)
    as (_ & _ & Hboards & _ & _ & _ & Hboard_miss).
  destruct (Hboard_miss _ _ Hmiss Hrun) as [Hb _].
  pose proof (Hboards _ _ Hb) as Hbload.
  split; [exact H|]. split; [exact Hload|]. split.
  - exact (proj2 (proj1 (proj2 (failures_are_cached Runs.project_client
                                  Runs.complained_world)) "" _ 3 Hload)).
  - split; [reflexivity|]. split; [exact Hmiss|]. split; [exact Hb|].
    split; [exact Hbload|]. split; [|reflexivity].
    destruct (failures_are_cached Runs.project_client Runs.complained_boards_world)
      as (_ & _ & _ & Hhit & _).
    exact (proj2 (Hhit _ 2 Hbload)).
Defined.

(** ** The singleton *)

Module Singleton.
Import Calls.

Lemma same_refl (a : ArduinoCli) : same_but_binary a a.
Proof. repeat split. Qed.

Lemma same_trans (a b c : ArduinoCli) :
  same_but_binary a b -> same_but_binary b c -> same_but_binary a c.
Proof. intros (? & ? & ?) (? & ? & ?). repeat split; congruence. Qed.

Lemma same_set_binary (a : ArduinoCli) (bin : option string) :
  same_but_binary (with_runOptions a (set_arduinCliBin (runOptions a) bin)) a.
Proof. repeat split. Qed.

Lemma checkEnvironment_same (host : Host) (self : ArduinoCli) (release : string)
  (w : World) :
  same_but_binary (snd (fst (checkEnvironment host self release w))) self.
Proof.
  unfold checkEnvironment.
  repeat match goal with
         | |- context [match ?x with _ => _ end] => destruct x
         | |- context [let '(_, _) := ?x in _] => destruct x
         end; cbn [fst snd]; (apply same_refl || apply same_set_binary).
Qed.

(** No method replaces the object, and only [checkEnvironment] changes
    it, in the binary it knows. *)
Lemma method_same (host : Host) (q : Request) (self : ArduinoCli) (w : World) :
  same_but_binary (fst (method host q self w)) self.
Proof.
  destruct q; cbn [method fst]; try apply same_refl.
  pose proof (checkEnvironment_same host self release w) as H.
  destruct (checkEnvironment host self release w) as [[c a] w0]. exact H.
Qed.

Lemma instance_settled host first created p o :
  settled first created p -> instance host o p = (Return 0, p).
Proof. intros (Hi & _). unfold instance. rewrite Hi. reflexivity. Qed.

Lemma serve_settled host first created p q :
  settled first created p ->
  fst (serve host p q) = Return 0 /\ settled first created (snd (serve host p q)).
Proof.
  intros Hs. pose proof Hs as (Hi & Ho & Hr & self & Hh & Hsame).
  assert (E : forall o, instance host o p = (Return 0, p))
    by (intros o; exact (instance_settled host first created p o Hs)).
  destruct q; cbn [serve]; rewrite E; cbn [fst snd]; try (split; [reflexivity | exact Hs]);
    rewrite Hh; cbn [lookup list_lookup];
    match goal with
    | |- context [method host ?q self (world p)] =>
        pose proof (method_same host q self (world p)) as Hm;
        destruct (method host q self (world p)) as [self' w']
    end; cbn [fst snd] in *;
    (split; [reflexivity|]);
    (split; [exact Hi|]); (split; [exact Ho|]); (split; [exact Hr|]);
    exists self'; (split; [reflexivity|]);
    exact (same_trans _ _ _ Hm Hsame).
Qed.

Lemma serve_all_settled host first created qs :
  forall p, settled first created p ->
  fst (serve_all host p qs) = replicate (length qs) (Return 0)
  /\ settled first created (snd (serve_all host p qs)).
Proof.
  induction qs as [|q qs IH]; intros p Hs; [split; [reflexivity | exact Hs]|].
  cbn [serve_all length replicate].
  destruct (serve_settled host first created p q Hs) as [Hq Hs'].
  destruct (serve host p q) as [ref p1]. cbn [fst snd] in Hq, Hs'. subst ref.
  destruct (IH p1 Hs') as [Hrefs Hend].
  destruct (serve_all host p1 qs) as [refs p2]. cbn [fst snd] in *.
  subst refs. split; [reflexivity | exact Hend].
Qed.

End Singleton.

(** The first call: the client is stored when its construction ends
    well, and nothing is changed when it throws. *)
Lemma first_instance (host : Host) (w : World) (first : option PartialOptions) :
  instance host first (start w)
  = match new_ArduinoCli host (normalizeOptions host first)
            (normalizeArguments host (normalizeOptions host first)) w with
    | Return created =>
        (Return 0,
         {| heap := [created]; _instance := Some 0;
            _initializationOptions := first; registered := [0]; world := w |})
    | Throw e => (Throw e, start w)
    end.
Proof.
  destruct first; unfold instance, start;
    cbn [_instance _initializationOptions heap registered world];
    match goal with
    | |- context [new_ArduinoCli ?h ?o ?a ?w] => destruct (new_ArduinoCli h o a w)
    end; reflexivity.
Qed.

Lemma first_instance_settled (host : Host) (w : World)
  (first : option PartialOptions) (created : ArduinoCli) :
  new_ArduinoCli host (normalizeOptions host first)
    (normalizeArguments host (normalizeOptions host first)) w = Return created ->
  settled first created (snd (instance host first (start w))).
Proof.
  intros H. rewrite first_instance, H. cbn [snd]. repeat split.
  eexists. split; [reflexivity | apply Singleton.same_refl].
Qed.

(** After any request a process that had no instance either still is as
    it started, or is settled. *)
Lemma first_request (host : Host) (w : World) (q : Calls.Request) :
  snd (Calls.serve host (start w) q) = start w
  \/ exists first created, settled first created (snd (Calls.serve host (start w) q)).
Proof.
  assert (Hfirst : forall first,
            snd (instance host first (start w)) = start w
            \/ exists created,
                 instance host first (start w)
                 = (Return 0, snd (instance host first (start w)))
                 /\ settled first created (snd (instance host first (start w)))).
  { intros first.
    pose proof (first_instance_settled host w first) as Hs.
    rewrite first_instance in *.
    destruct (new_ArduinoCli host (normalizeOptions host first)
                (normalizeArguments host (normalizeOptions host first)) w)
      as [created|e]; [right | left; reflexivity].
    exists created. split; [reflexivity | exact (Hs created eq_refl)]. }
  destruct q;
    try (cbn [Calls.serve];
         destruct (Hfirst None) as [Hsame | (created & Hret & Hs)];
         [ destruct (instance host None (start w)) as [[ref|e] p1];
           cbn [snd] in Hsame; subst p1; [|left; reflexivity];
           cbn [start heap lookup list_lookup]; left; reflexivity
         | rewrite Hret;
           match goal with
           | |- context [Calls.method host ?q _ _] =>
               pose proof (Singleton.serve_settled host None created _ q Hs)
                 as [_ Hq]
           end;
           cbn [Calls.serve] in Hq;
           rewrite (Singleton.instance_settled host None created _ None Hs) in Hq;
           right; exists None, created; exact Hq ]).
  cbn [Calls.serve].
  destruct (Hfirst initializationOptions) as [Hsame | (created & _ & Hs)];
    [left; exact Hsame | right; eauto].
Qed.

Lemma serve_all_one_client (host : Host) (w : World) (qs : list Calls.Request) :
  length (heap (snd (Calls.serve_all host (start w) qs))) <= 1.
Proof.
  induction qs as [|q qs IH]; [cbn; lia|].
  cbn [Calls.serve_all].
  destruct (first_request host w q) as [Hsame | (first & created & Hs)].
  - destruct (Calls.serve host (start w) q) as [ref p1]. cbn [snd] in Hsame.
    subst p1. destruct (Calls.serve_all host (start w) qs) as [refs p2].
    exact IH.
  - destruct (Calls.serve host (start w) q) as [ref p1]. cbn [snd] in Hs.
    destruct (Singleton.serve_all_settled host first created qs p1 Hs) as [_ Hend].
    destruct (Calls.serve_all host p1 qs) as [refs p2]. cbn [snd] in *.
    destruct Hend as (_ & _ & _ & self & -> & _). cbn. lia.
Qed.

(** C7, as stated, fails.  The project file gives the number 5 as CLI
    version.  The constructor hands it to [findExecutable], where
    [path.join] throws; the first call of [instance] therefore returns
    nothing and stores nothing.  The second call constructs the client
    from its own options, which name no config file, and that client is
    the instance from then on. *)
Lemma instance_throws_counterexample :
  instance linux_host (Some Runs.project_options) (start Runs.typo_world)
  = (Throw TypeError, start Runs.typo_world)
  /\ fst (Calls.serve_all linux_host (start Runs.typo_world)
            [Calls.AskInstance (Some Runs.project_options);
             Calls.AskInstance (Some no_options);
             Calls.AskInstance (Some Runs.project_options)])
     = [Throw TypeError; Return 0; Return 0]
  /\ _initializationOptions
       (snd (Calls.serve_all linux_host (start Runs.typo_world)
               [Calls.AskInstance (Some Runs.project_options);
                Calls.AskInstance (Some no_options);
                Calls.AskInstance (Some Runs.project_options)]))
     = Some no_options
  /\ heap (snd (Calls.serve_all linux_host (start Runs.typo_world)
                  [Calls.AskInstance (Some Runs.project_options);
                   Calls.AskInstance (Some no_options);
                   Calls.AskInstance (Some Runs.project_options)]))
     = [Runs.constructed linux_host no_options Runs.typo_world]
  /\ configFile (runOptions (Runs.constructed linux_host no_options
                               Runs.typo_world)) = None
  /\ configFile (normalizeOptions linux_host (Some Runs.project_options))
     = Some Runs.project_file.
Proof. repeat split; reflexivity. Qed.

(** C7, amended.  The first call of [instance] whose construction ends
    well constructs the client from the options it is given, stores it
    and registers it.  From then on, over any list of requests, every
    call of [instance] returns the reference of that client whatever
    options it is given, the options kept are those of that call, the
    process holds that one client object, changed at most in the binary
    it knows, and nothing else is registered.  A call whose construction
    throws, which it does with a [TypeError] only, changes nothing.  No
    process ever holds two client objects. *)
Theorem instance_is_singleton (host : Host) (w : World)
  (first : option PartialOptions) (requests : list Calls.Request) :
  match new_ArduinoCli host (normalizeOptions host first)
          (normalizeArguments host (normalizeOptions host first)) w with
  | Return created =>
      let after :=
        Calls.serve_all host (snd (instance host first (start w))) requests in
      instance host first (start w)
      = (Return 0, {| heap := [created]; _instance := Some 0;
                      _initializationOptions := first; registered := [0];
                      world := w |})
      /\ fst after = replicate (length requests) (Return 0)
      /\ (forall later, instance host later (snd after) = (Return 0, snd after))
      /\ _instance (snd after) = Some 0
      /\ _initializationOptions (snd after) = first
      /\ registered (snd after) = [0]
      /\ (exists self, heap (snd after) = [self] /\ same_but_binary self created)
  | Throw e =>
      e = TypeError /\ instance host first (start w) = (Throw e, start w)
  end
  /\ length (heap (snd (Calls.serve_all host (start w) requests))) <= 1.
Proof.
  split; [|apply serve_all_one_client].
  pose proof (first_instance host w first) as Hfirst.
  pose proof (first_instance_settled host w first) as Hsettled.
  pose proof (new_keeps_runArguments host (normalizeOptions host first)
                (normalizeArguments host (normalizeOptions host first)) w) as Hnew.
  destruct (new_ArduinoCli host (normalizeOptions host first)
              (normalizeArguments host (normalizeOptions host first)) w)
    as [created|e]; [|split; assumption].
  cbn zeta.
  destruct (Singleton.serve_all_settled host first created requests _
              (Hsettled created eq_refl)) as [Hrefs Hs].
  split; [exact Hfirst|]. split; [exact Hrefs|].
  split; [intros later; exact (Singleton.instance_settled host _ _ _ later Hs)|].
  destruct Hs as (Hi & Ho & Hr & Hh). repeat (split; [assumption|]). exact Hh.
Qed.

Example instance_ignores_later_options :
  Calls.serve_all linux_host (start Runs.installed_world)
    [Calls.AskInstance (Some Runs.project_options);
     Calls.AskCoreList "";
     Calls.AskInstance (Some no_options);
     Calls.AskCheckEnvironment "0.21.0";
     Calls.AskInstance None]
  = ([Return 0; Return 0; Return 0; Return 0; Return 0],
     {| heap := [Runs.stale_client]; _instance := Some 0;
        _initializationOptions := Some Runs.project_options;
        registered := [0]; world := Runs.stale_world |}).
Proof. reflexivity. Qed.

(** * Further properties of the three files *)

(** ** Options and arguments *)

(** X1.  Normalising the options only ever fills in the config file and
    resolves the log file.  The workspace folder, [debug], [verbose] and
    the binary pass through; a config file given as a non-empty path is
    kept; with a workspace folder there is always a config file
    afterwards; without one, and also whenever [debug] is off, the log
    file is left as given; and without a workspace folder nothing
    changes at all. *)
Theorem normalizeOptions_frame (host : Host) (args : option PartialOptions) :
  let given := spread args in
  let o := normalizeOptions host args in
  workspaceFolder o = workspaceFolder given
  /\ debug o = debug given
  /\ verbose o = verbose given
  /\ arduinCliBin o = arduinCliBin given
  /\ configFile o
     = match workspaceFolder given, truthy_string (configFile given) with
       | Some folder, None =>
           Some (path_join host [uri folder; ".vscode"; "aclabarduino.json"])
       | _, _ => configFile given
       end
  /\ match workspaceFolder given with
     | Some _ => configFile o <> None
     | None => o = given
     end
  /\ (if debug given then logFile o <> Some (LogFlag true)
                          \/ workspaceFolder given = None
      else logFile o = logFile given).
Proof.
  unfold normalizeOptions. cbn zeta.
  destruct (spread args) as [folder file dbg vrb lf bin]. cbn.
  destruct folder as [folder|]; cbn.
  - destruct (truthy_string file) as [f|] eqn:Hf; cbn;
      destruct dbg; cbn; destruct lf as [[[]|p]|]; cbn;
      repeat split; try discriminate; try (left; discriminate);
      destruct file; cbn in Hf; try discriminate.
  - destruct dbg; repeat split; auto.
Qed.

(** X2.  With [debug] on, the token that follows [--log-file] is the log
    file resolved against the workspace folder when there is one: the
    given path, or [arduino-cli-<folder name>.log] for the flag [true].
    Otherwise it is the text of what was given: without a workspace
    folder a flag is passed as [true] or [false], and when no log file
    was given at all the CLI is handed the text [undefined]. *)
Theorem debug_log_file_token (host : Host) (args : option PartialOptions) :
  debug (spread args) = true ->
  exists before after,
    normalizeArguments host (normalizeOptions host args)
    = before
      ++ ["--log-file";
          match workspaceFolder (spread args), logFile (spread args) with
          | Some folder, Some (LogPath p) => path_join host [uri folder; p]
          | Some folder, Some (LogFlag true) =>
              path_join host
                [uri folder; "arduino-cli-" +:+ name folder +:+ ".log"]
          | _, Some (LogFlag b) => if b then "true" else "false"
          | _, Some (LogPath p) => p
          | _, None => "undefined"
          end;
          "--log-level"; "debug"]
      ++ after
    /\ (before = [] \/ exists yaml, before = ["--config-file"; yaml])
    /\ (after = [] \/ after = ["--verbose"]).
Proof.
  intros Hdebug.
  pose proof (normalizeOptions_frame host args) as (_ & Hd & _).
  cbn zeta in Hd. rewrite Hdebug in Hd.
  exists (match truthy_string (configFile (normalizeOptions host args)) with
          | Some file =>
              ["--config-file";
               path_join host [path_dirname host file; "arduino-cli.yaml"]]
          | None => []
          end),
         (if verbose (normalizeOptions host args) then ["--verbose"] else []).
  split; [|split].
  - unfold normalizeArguments, push. rewrite Hd.
    assert (Hlog : template_logFile (logFile (normalizeOptions host args))
              = match workspaceFolder (spread args), logFile (spread args) with
                | Some folder, Some (LogPath p) => path_join host [uri folder; p]
                | Some folder, Some (LogFlag true) =>
                    path_join host
                      [uri folder; "arduino-cli-" +:+ name folder +:+ ".log"]
                | _, Some (LogFlag b) => if b then "true" else "false"
                | _, Some (LogPath p) => p
                | _, None => "undefined"
                end).
    { unfold normalizeOptions. cbn zeta.
      destruct (spread args) as [folder file dbg vrb lf bin]. cbn in *. subst dbg.
      destruct folder as [folder|]; cbn.
      - destruct (truthy_string file); cbn; destruct lf as [[[]|p]|]; reflexivity.
      - destruct lf as [[[]|p]|]; reflexivity. }
    rewrite Hlog.
    destruct (truthy_string (configFile (normalizeOptions host args))),
      (verbose (normalizeOptions host args)); reflexivity.
  - destruct (truthy_string (configFile (normalizeOptions host args)));
      [right; eexists; reflexivity | left; reflexivity].
  - destruct (verbose (normalizeOptions host args)); auto.
Qed.

Lemma debug_log_file_token_witness :
  debug (spread (Some MoreRuns.debug_options)) = true
  /\ normalizeArguments linux_host
       (normalizeOptions linux_host (Some MoreRuns.debug_options))
     = ["--log-file"; "undefined"; "--log-level"; "debug"]
  /\ normalizeArguments linux_host
       (normalizeOptions linux_host (Some MoreRuns.workspace_options))
     = ["--config-file"; "/ws/.vscode/arduino-cli.yaml";
        "--log-file"; "/ws/arduino-cli-blink.log"; "--log-level"; "debug"]
  /\ exists before after,
       normalizeArguments linux_host
         (normalizeOptions linux_host (Some MoreRuns.debug_options))
       = before ++ ["--log-file"; "undefined"; "--log-level"; "debug"] ++ after
       /\ (before = [] \/ exists yaml, before = ["--config-file"; yaml])
       /\ (after = [] \/ after = ["--verbose"]).
Proof.
  split; [reflexivity|]. split; [reflexivity|]. split; [reflexivity|].
  exact (debug_log_file_token linux_host (Some MoreRuns.debug_options) eq_refl).
Defined.

(** X3.  The client of a workspace folder always runs the CLI with the
    [arduino-cli.yaml] that lies next to its config file, as the first
    two arguments after the command's own: next to the config file given
    when that is a non-empty path, and next to
    [<folder>/.vscode/aclabarduino.json] otherwise (provided [path.join]
    gives a non-empty path). *)
Theorem workspace_config_file (host : Host) (args : option PartialOptions)
  (folder : WorkspaceFolder) :
  workspaceFolder (spread args) = Some folder ->
  nonempty (path_join host [uri folder; ".vscode"; "aclabarduino.json"]) = true ->
  let file :=
    match truthy_string (configFile (spread args)) with
    | Some given => given
    | None => path_join host [uri folder; ".vscode"; "aclabarduino.json"]
    end in
  configFile (normalizeOptions host args) = Some file
  /\ exists rest,
       normalizeArguments host (normalizeOptions host args)
       = "--config-file"
           :: path_join host [path_dirname host file; "arduino-cli.yaml"] :: rest.
Proof.
  intros Hfolder Hjoin file.
  pose proof (normalizeOptions_frame host args) as (_ & _ & _ & _ & Hfile & _).
  cbn zeta in Hfile. rewrite Hfolder in Hfile.
  assert (Hset : configFile (normalizeOptions host args) = Some file
                 /\ truthy_string (Some file) = Some file).
  { subst file. rewrite Hfile.
    destruct (spread args) as [wf cf dbg vrb lf bin]. cbn in *.
    destruct cf as [cf|]; cbn.
    - destruct (nonempty cf) eqn:Hcf; cbn; [rewrite Hcf | rewrite Hjoin]; done.
    - rewrite Hjoin. done. }
  destruct Hset as [Hset Htruthy]. split; [exact Hset|].
  unfold normalizeArguments, push. rewrite Hset, Htruthy.
  destruct (debug (normalizeOptions host args)),
    (verbose (normalizeOptions host args)); eexists; reflexivity.
Qed.

Lemma workspace_config_file_witness :
  workspaceFolder (spread (Some MoreRuns.workspace_options)) = Some MoreRuns.blink
  /\ nonempty (path_join linux_host
                 [uri MoreRuns.blink; ".vscode"; "aclabarduino.json"]) = true
  /\ configFile (normalizeOptions linux_host (Some MoreRuns.workspace_options))
     = Some "/ws/.vscode/aclabarduino.json"
  /\ exists rest,
       normalizeArguments linux_host
         (normalizeOptions linux_host (Some MoreRuns.workspace_options))
       = "--config-file" :: "/ws/.vscode/arduino-cli.yaml" :: rest.
Proof.
  split; [reflexivity|]. split; [reflexivity|].
  exact (workspace_config_file linux_host (Some MoreRuns.workspace_options)
           MoreRuns.blink eq_refl eq_refl).
Defined.

(** ** The binary and the configuration *)

(** X4.  A binary that [findExecutable] finds exists, has a non-empty
    path and lies at [ACL_HOME/arduino-cli/<release>/arduino-cli], with
    [.exe] on win32; so nothing is ever found on a platform other than
    win32 and linux.  An empty release is looked up as release [xxxx]. *)
Theorem findExecutable_found (host : Host) (release : string) (w : World)
  (found : string) :
  findExecutable host release w = Some found ->
  existsSync w found = true
  /\ found <> ""
  /\ findExecutable host (if nonempty release then release else "xxxx") w
     = Some found
  /\ ((platform host = "win32"
       /\ found = path_join host
                   [ACL_HOME host; "arduino-cli";
                    if nonempty release then release else "xxxx";
                    "arduino-cli.exe"])
      \/ (platform host = "linux"
          /\ found = path_join host
                      [ACL_HOME host; "arduino-cli";
                       if nonempty release then release else "xxxx";
                       "arduino-cli"])).
Proof.
  unfold findExecutable.
  assert (Hidem : (if nonempty (if nonempty release then release else "xxxx")
                   then (if nonempty release then release else "xxxx")
                   else "xxxx")
                  = (if nonempty release then release else "xxxx"))
    by (destruct (nonempty release) eqn:E; [rewrite E|]; reflexivity).
  rewrite Hidem.
  destruct (String.eqb (platform host) "win32") eqn:Hwin;
    [|destruct (String.eqb (platform host) "linux") eqn:Hlinux].
  - destruct (existsSync w _) eqn:Hex; [|discriminate]. intros [= <-].
    apply String.eqb_eq in Hwin.
    split; [exact Hex|]. split.
    + intros E. rewrite E in Hex. discriminate.
    + split; [reflexivity | left; done].
  - destruct (existsSync w _) eqn:Hex; [|discriminate]. intros [= <-].
    apply String.eqb_eq in Hlinux.
    split; [exact Hex|]. split.
    + intros E. rewrite E in Hex. discriminate.
    + split; [reflexivity | right; done].
  - discriminate.
Qed.

Lemma findExecutable_found_witness :
  findExecutable linux_host "0.20.2" Runs.installed_world = Some Runs.cli_path
  /\ existsSync Runs.installed_world Runs.cli_path = true
  /\ findExecutable linux_host "" Runs.installed_world = None.
Proof.
  assert (H : findExecutable linux_host "0.20.2" Runs.installed_world
              = Some Runs.cli_path) by reflexivity.
  split; [exact H|]. split; [|reflexivity].
  exact (proj1 (findExecutable_found linux_host "0.20.2" Runs.installed_world
                  Runs.cli_path H)).
Defined.

(** X5.  A construction that ends well keeps the arguments and every
    option but the binary.  Whenever it has loaded a configuration that
    is truthy, the binary is the one found for the CLI version of that
    configuration, whatever binary the options named: for the release it
    names when that is a string, and for release [xxxx] when it names
    none or a falsy value.  Only when no such configuration was loaded
    does the binary of the options stay.  A construction throws, a
    [TypeError], only on win32 and linux and only when the configuration
    loaded is truthy and gives as CLI version a truthy value that is not
    a string. *)
Theorem new_ArduinoCli_binary (host : Host) (o : ArduinoCliOptions)
  (arguments : list string) (w : World) :
  let loaded :=
    fst (config host {| runArguments := arguments; runOptions := o;
                        _config := None |} w) in
  match new_ArduinoCli host o arguments w with
  | Return self =>
      runArguments self = arguments
      /\ set_arduinCliBin (runOptions self) None = set_arduinCliBin o None
      /\ _config self = loaded
      /\ match loaded with
         | Some c =>
             if JSON.truthy c then
               match cliVersion c with
               | Some (JSON.Str release) =>
                   arduinCliBin (runOptions self) = findExecutable host release w
               | Some v =>
                   arduinCliBin (runOptions self) = findExecutable host "xxxx" w
                   /\ (JSON.truthy v = true ->
                       platform host <> "win32" /\ platform host <> "linux")
               | None =>
                   arduinCliBin (runOptions self) = findExecutable host "xxxx" w
               end
             else arduinCliBin (runOptions self) = arduinCliBin o
         | None => arduinCliBin (runOptions self) = arduinCliBin o
         end
  | Throw e =>
      e = TypeError
      /\ (platform host = "win32" \/ platform host = "linux")
      /\ exists c v,
           loaded = Some c /\ JSON.truthy c = true
           /\ cliVersion c = Some v /\ JSON.truthy v = true
           /\ forall release, v <> JSON.Str release
  end.
Proof.
  assert (Hxxxx : findExecutable host "" w = findExecutable host "xxxx" w)
    by reflexivity.
  assert (Hplatform :
            (String.eqb (platform host) "win32"
             || String.eqb (platform host) "linux") = false ->
            platform host <> "win32" /\ platform host <> "linux").
  { intros H. apply orb_false_iff in H as [Hw Hl].
    apply String.eqb_neq in Hw, Hl. done. }
  assert (Hplatform' :
            (String.eqb (platform host) "win32"
             || String.eqb (platform host) "linux") = true ->
            platform host = "win32" \/ platform host = "linux").
  { intros H. apply orb_true_iff in H as [H|H]; apply String.eqb_eq in H; auto. }
  cbn zeta. unfold new_ArduinoCli.
  destruct (config host {| runArguments := arguments; runOptions := o;
                           _config := None |} w) as [loaded self] eqn:Hconfig.
  assert (Hself : runArguments self = arguments /\ runOptions self = o
                  /\ _config self = loaded).
  { unfold config in Hconfig. cbn [config_missing _config runOptions] in Hconfig.
    repeat match type of Hconfig with
           | context [match ?x with _ => _ end] => destruct x
           end; injection Hconfig as <- <-; done. }
  destruct Hself as (Hargs & Hopts & Hheld). cbn [fst].
  destruct loaded as [c|]; [|rewrite Hopts; done].
  destruct (JSON.truthy c) eqn:Hc; [|rewrite Hopts; done].
  unfold findExecutable_any.
  destruct (cliVersion c) as [v|] eqn:Hv.
  2: { cbn; rewrite ?Hopts; repeat split; done. }
  destruct v eqn:Ev;
    try (cbn; rewrite ?Hopts; repeat split; done);
    match goal with
    | |- context [if JSON.truthy ?x then _ else _] =>
        destruct (JSON.truthy x) eqn:Ht
    end;
    try (cbn; rewrite ?Hopts; repeat split; done);
    (destruct (String.eqb (platform host) "win32"
               || String.eqb (platform host) "linux") eqn:Hp;
     [ split; [reflexivity|]; split; [exact (Hplatform' eq_refl)|];
       eexists _, _; repeat split; try done
     | cbn; rewrite ?Hopts; repeat split; try done;
       try exact (proj1 (Hplatform eq_refl));
       try exact (proj2 (Hplatform eq_refl)) ]).
Qed.

Lemma new_ArduinoCli_binary_witness :
  platform linux_host = "linux"
  /\ exists c v,
       fst (config linux_host Runs.fresh_client Runs.typo_world) = Some c
       /\ JSON.truthy c = true
       /\ cliVersion c = Some v /\ JSON.truthy v = true
       /\ forall release, v <> JSON.Str release.
Proof.
  split; [reflexivity|].
  exact (proj2 (proj2 (new_ArduinoCli_binary linux_host
                         (normalizeOptions linux_host (Some Runs.project_options))
                         (normalizeArguments linux_host
                            (normalizeOptions linux_host
                               (Some Runs.project_options)))
                         Runs.typo_world))).
Defined.

Example new_ArduinoCli_run :
  new_ArduinoCli linux_host (normalizeOptions linux_host (Some Runs.project_options))
    (normalizeArguments linux_host
       (normalizeOptions linux_host (Some Runs.project_options)))
    Runs.typo_world
  = Throw TypeError
  /\ (exists self,
        new_ArduinoCli linux_host
          (normalizeOptions linux_host (Some Runs.project_options))
          (normalizeArguments linux_host
             (normalizeOptions linux_host (Some Runs.project_options)))
          MoreRuns.tiny_world
        = Return self
        /\ arduinCliBin (runOptions self) = None
        /\ _config self
           = Some (JSON.Object [("cliVersion", JSON.Number "1e-400")]))
  /\ exists self,
       new_ArduinoCli linux_host
         (normalizeOptions linux_host (Some Runs.project_options))
         (normalizeArguments linux_host
            (normalizeOptions linux_host (Some Runs.project_options)))
         Runs.installed_world
       = Return self
       /\ arduinCliBin (runOptions self) = Some Runs.cli_path.
Proof.
  split; [reflexivity|]. split; eexists; (split; [reflexivity|]); repeat split.
Qed.

(** X6.  The getter reads the file once.  When a call of [config] has
    given a truthy configuration, every later call gives the same one and
    leaves the client as it is, whatever the files have become. *)
Theorem config_memoized (host : Host) (self : ArduinoCli) (w w' : World)
  (c : JSON.value) :
  fst (config host self w) = Some c ->
  JSON.truthy c = true ->
  config host (snd (config host self w)) w' = (Some c, snd (config host self w)).
Proof.
  intros Hc Htruthy.
  assert (Hheld : _config (snd (config host self w)) = Some c).
  { rewrite <- Hc. unfold config. reflexivity. }
  unfold config at 1.
  assert (Hmissing : config_missing (snd (config host self w)) = false).
  { unfold config_missing. rewrite Hheld, Htruthy. reflexivity. }
  rewrite Hmissing, Hheld. reflexivity.
Qed.

Lemma config_memoized_witness :
  fst (config linux_host Runs.fresh_client Runs.installed_world)
  = Some (JSON.Object [("cliVersion", JSON.Str "0.20.2")])
  /\ config linux_host
       (snd (config linux_host Runs.fresh_client Runs.installed_world))
       Runs.broken_world
     = (Some (JSON.Object [("cliVersion", JSON.Str "0.20.2")]),
        snd (config linux_host Runs.fresh_client Runs.installed_world)).
Proof.
  split; [reflexivity|].
  exact (config_memoized linux_host Runs.fresh_client Runs.installed_world
           Runs.broken_world _ eq_refl eq_refl).
Defined.

(** ** Commands *)

Lemma result_of_text (out err : string) :
  result_of FORMAT_TEXT out err = Return (text_result out err).
Proof.
  unfold result_of, text_result.
  destruct (nonempty out); cbn [negb]; [|reflexivity].
  rewrite (bool_decide_eq_true_2 (FORMAT_TEXT !! 1%nat = Some "text"))
    by reflexivity.
  reflexivity.
Qed.

Lemma text_command_returns (self : ArduinoCli) (commandCli : string)
  (args : list string) (w : World) (bin : string) :
  truthy_string (arduinCliBin (runOptions self)) = Some bin ->
  let params := command_line self commandCli args FORMAT_TEXT in
  executeCommand self commandCli args FORMAT_TEXT w
  = (text_outcome (next_output w bin params), snd (spawnSync bin params w)).
Proof.
  intros H params. rewrite (ExecuteCommand.configured _ _ _ _ _ _ H).
  fold params.
  destruct (next_output w bin params); cbn [text_outcome];
    [rewrite result_of_text|]; reflexivity.
Qed.


(** X7.  [getCurrentVersion] never throws, starts at most the one
    subprocess [version], and leaves the cache alone; the files are
    afterwards what that subprocess has made of them.  It gives the
    member [VersionString] of the JSON value printed on stdout when
    stderr is empty and that value is not [null] ([undefined] when the
    value has no such member), and the empty string otherwise: without a
    binary, with a binary that cannot be started, with anything on
    stderr, and with a stdout that is empty, not JSON, or [null]. *)
Theorem getCurrentVersion_result (self : ArduinoCli) (w : World) :
  match truthy_string (arduinCliBin (runOptions self)) with
  | None => getCurrentVersion self w = (Some (JSON.Str ""), w)
  | Some bin =>
      let params := command_line self "version" [] FORMAT_JSON in
      getCurrentVersion self w
      = (match next_output w bin params with
         | Exited _ out err =>
             if nonempty err then Some (JSON.Str "")
             else match JSON.parse out with
                  | None | Some JSON.Null => Some (JSON.Str "")
                  | Some d => JSON.get d "VersionString"
                  end
         | NotStarted => Some (JSON.Str "")
         end,
         {| fs := written w (length (spawned w)) bin params (fs w);
            cache := cache w;
            spawned := spawned w ++ [(bin, params)];
            subprocess := subprocess w;
            written := written w |})
  end.
Proof.
  unfold getCurrentVersion.
  destruct (truthy_string (arduinCliBin (runOptions self))) as [bin|] eqn:H.
  - cbn zeta. rewrite (ExecuteCommand.configured _ _ _ _ _ _ H).
    unfold spawnSync. cbn [snd].
    destruct (next_output w bin (command_line self "version" [] FORMAT_JSON))
      as [code out err|]; [|reflexivity].
    unfold result_of.
    rewrite (bool_decide_eq_false_2 (FORMAT_JSON !! 1%nat = Some "text"))
      by discriminate.
    destruct (nonempty out) eqn:Hout; cbn [negb].
    + destruct (JSON.parse out) as [d|];
        destruct (nonempty err); cbn; try reflexivity.
      destruct d; reflexivity.
    + apply ExecuteCommand.nonempty_false in Hout. rewrite Hout.
      destruct (nonempty err); reflexivity.
  - rewrite (ExecuteCommand.unconfigured _ _ _ _ _ H). reflexivity.
Qed.

Example getCurrentVersion_run :
  fst (getCurrentVersion Runs.project_client MoreRuns.version_world)
  = Some (JSON.Str "0.20.2")
  /\ fst (getCurrentVersion Runs.project_client Runs.installed_world) = None
  /\ fst (getCurrentVersion Runs.project_client Runs.chatty_world)
     = Some (JSON.Str "")
  /\ fst (getCurrentVersion Runs.stale_client MoreRuns.version_world)
     = Some (JSON.Str "")
  /\ fst (getCurrentVersion Runs.project_client Runs.stuck_world)
     = Some (JSON.Str "").
Proof. repeat split; reflexivity. Qed.

(** X8.  The result of a command depends on the world only through what
    the subprocess prints on stdout and stderr.  In particular the exit
    status plays no part: a subprocess that fails without printing on
    stderr is reported like one that succeeds. *)
Theorem executeCommand_ignores_exit_status (self : ArduinoCli)
  (commandCli : string) (args extra : list string) (w1 w2 : World) :
  (forall bin params,
      stdout (next_output w1 bin params) = stdout (next_output w2 bin params)
      /\ stderr (next_output w1 bin params) = stderr (next_output w2 bin params)) ->
  fst (executeCommand self commandCli args extra w1)
  = fst (executeCommand self commandCli args extra w2).
Proof.
  intros Hsame.
  destruct (truthy_string (arduinCliBin (runOptions self))) as [bin|] eqn:H.
  - rewrite !(ExecuteCommand.configured _ _ _ _ _ _ H). cbn [fst].
    destruct (Hsame bin (command_line self commandCli args extra)) as [Hout Herr].
    destruct (next_output w1 bin (command_line self commandCli args extra)),
      (next_output w2 bin (command_line self commandCli args extra));
      cbn [stdout stderr] in Hout, Herr; simplify_eq; reflexivity.
  - rewrite !(ExecuteCommand.unconfigured _ _ _ _ _ H). reflexivity.
Qed.

Lemma executeCommand_ignores_exit_status_witness :
  exit_status (next_output MoreRuns.version_world Runs.cli_path []) = Some 0%Z
  /\ exit_status (next_output MoreRuns.failing_version_world Runs.cli_path [])
     = Some 1%Z
  /\ fst (executeCommand Runs.project_client "version" [] FORMAT_JSON
            MoreRuns.version_world)
     = fst (executeCommand Runs.project_client "version" [] FORMAT_JSON
              MoreRuns.failing_version_world)
  /\ fst (executeCommand Runs.project_client "version" [] FORMAT_JSON
            MoreRuns.failing_version_world)
     = Return {| status := true;
                 data := Some (JSON.Object [("VersionString", JSON.Str "0.20.2")]);
                 reason := "" |}.
Proof.
  split; [reflexivity|]. split; [reflexivity|]. split; [|reflexivity].
  apply (executeCommand_ignores_exit_status Runs.project_client "version" []
           FORMAT_JSON MoreRuns.version_world MoreRuns.failing_version_world).
  intros bin params. split; reflexivity.
Defined.

(** X9.  [validate3rdPartyUrl] runs three commands in this order: adding
    the URL, updating the index, removing the URL.  When the binary can
    be started each time, it returns their three results, whatever they
    are: the URL is removed again even when adding it or updating the
    index has failed.  When the binary cannot be started for one of
    them, that command throws a [TypeError], no result is returned and
    the commands after it are not run; so a URL that was added may stay.
    Without a binary nothing is started and the same failure is returned
    three times.  The cache is emptied before the index is updated:
    it is empty afterwards unless the first command has thrown. *)
Theorem validate3rdPartyUrl_three (self : ArduinoCli) (url : string) (w : World) :
  match truthy_string (arduinCliBin (runOptions self)) with
  | None =>
      validate3rdPartyUrl self url w
      = (Return [not_informed; not_informed; not_informed], ACLCache.clear w)
  | Some bin =>
      let n := length (spawned w) in
      let add :=
        command_line self "config" ["add"; "board_manager.additional_urls"; url]
          FORMAT_TEXT in
      let update := command_line self "core" ["update-index"] FORMAT_TEXT in
      let remove :=
        command_line self "config"
          ["remove"; "board_manager.additional_urls"; url] FORMAT_TEXT in
      let after := snd (validate3rdPartyUrl self url w) in
      match subprocess w n bin add with
      | NotStarted =>
          fst (validate3rdPartyUrl self url w) = Throw TypeError
          /\ spawned after = spawned w ++ [(bin, add)]
          /\ cache after = cache w
      | Exited _ out1 err1 =>
          match subprocess w (S n) bin update with
          | NotStarted =>
              fst (validate3rdPartyUrl self url w) = Throw TypeError
              /\ spawned after = spawned w ++ [(bin, add); (bin, update)]
              /\ cache after = ∅
          | Exited _ out2 err2 =>
              match subprocess w (S (S n)) bin remove with
              | NotStarted =>
                  fst (validate3rdPartyUrl self url w) = Throw TypeError
                  /\ spawned after
                     = spawned w ++ [(bin, add); (bin, update); (bin, remove)]
                  /\ cache after = ∅
              | Exited _ out3 err3 =>
                  fst (validate3rdPartyUrl self url w)
                  = Return [text_result out1 err1; text_result out2 err2;
                            text_result out3 err3]
                  /\ spawned after
                     = spawned w ++ [(bin, add); (bin, update); (bin, remove)]
                  /\ cache after = ∅
              end
          end
      end
  end.
Proof.
  unfold validate3rdPartyUrl, configAdd3rdPartyUrl, coreUpdateIndex,
    configRemove3thPartyUrl.
  destruct (truthy_string (arduinCliBin (runOptions self))) as [bin|] eqn:H;
    [|rewrite !(ExecuteCommand.unconfigured _ _ _ _ _ H); reflexivity].
  cbn zeta.
  set (add := command_line self "config"
                ["add"; "board_manager.additional_urls"; url] FORMAT_TEXT).
  set (update := command_line self "core" ["update-index"] FORMAT_TEXT).
  set (remove := command_line self "config"
                   ["remove"; "board_manager.additional_urls"; url] FORMAT_TEXT).
  rewrite (text_command_returns _ _ _ _ _ H). cbn zeta. fold add.
  unfold next_output.
  destruct (subprocess w (length (spawned w)) bin add) as [code1 out1 err1|];
    cbn [text_outcome]; [|repeat split; reflexivity].
  rewrite (text_command_returns _ _ _ _ _ H). cbn zeta. fold update.
  unfold next_output.
  cbn [spawnSync snd ACLCache.clear spawned subprocess].
  rewrite length_app, Nat.add_1_r.
  destruct (subprocess w (S (length (spawned w))) bin update)
    as [code2 out2 err2|]; cbn [text_outcome];
    [|cbn; rewrite <- !app_assoc; repeat split; reflexivity].
  rewrite (text_command_returns _ _ _ _ _ H). cbn zeta. fold remove.
  unfold next_output.
  cbn [spawnSync snd ACLCache.clear spawned subprocess].
  rewrite !length_app, !Nat.add_1_r.
  destruct (subprocess w (S (S (length (spawned w)))) bin remove)
    as [code3 out3 err3|]; cbn [text_outcome]; cbn; rewrite <- !app_assoc;
    repeat split; reflexivity.
Qed.

Example validate3rdPartyUrl_run :
  fst (validate3rdPartyUrl Runs.project_client "https://example.org/index.json"
         Runs.two_lines_world)
  = Return [text_result ("a" +:+ Runs.LF +:+ "b") "";
            text_result ("a" +:+ Runs.LF +:+ "b") "";
            text_result ("a" +:+ Runs.LF +:+ "b") ""]
  /\ fst (validate3rdPartyUrl Runs.project_client "https://example.org/index.json"
            MoreRuns.lost_world)
     = Throw TypeError
  /\ spawned (snd (validate3rdPartyUrl Runs.project_client
                     "https://example.org/index.json" MoreRuns.lost_world))
     = [(Runs.cli_path,
         ["config"; "add"; "board_manager.additional_urls";
          "https://example.org/index.json"; "--config-file";
          "/ws/.vscode/arduino-cli.yaml"; "--format"; "text"]);
        (Runs.cli_path,
         ["core"; "update-index"; "--config-file"; "/ws/.vscode/arduino-cli.yaml";
          "--format"; "text"])].
Proof. repeat split; reflexivity. Qed.

(** ** Checking the environment *)

(** X10.  Without the path of a config file [checkEnvironment] does
    nothing and resolves to [undefined].  When the config file does not
    exist it does not look for a binary and starts nothing: the client,
    the binary it knows included, and the world stay as they are.  For a
    client without a workspace folder it resolves to [undefined]; for a
    client with one it throws a [TypeError], the module
    [ArduinoDiagnostic] having no [createProjectDiagnostic] to call. *)
Theorem checkEnvironment_no_project (host : Host) (self : ArduinoCli)
  (release : string) (w : World) :
  (truthy_string (configFile (runOptions self)) = None ->
   checkEnvironment host self release w = (Return None, self, w))
  /\ (forall file,
        truthy_string (configFile (runOptions self)) = Some file ->
        existsSync w file = false ->
        checkEnvironment host self release w
        = (match workspaceFolder (runOptions self) with
           | Some _ => Throw TypeError
           | None => Return None
           end, self, w)).
Proof.
  split.
  - intros H. unfold checkEnvironment. rewrite H. reflexivity.
  - intros file H Hex. unfold checkEnvironment. rewrite H, Hex. reflexivity.
Qed.

Lemma checkEnvironment_no_project_witness :
  truthy_string (configFile (runOptions MoreRuns.lonely_client))
  = Some "/ws/.vscode/aclabarduino.json"
  /\ existsSync Runs.empty_world "/ws/.vscode/aclabarduino.json" = false
  /\ workspaceFolder (runOptions MoreRuns.lonely_client) = Some MoreRuns.blink
  /\ checkEnvironment linux_host MoreRuns.lonely_client "0.20.2" Runs.empty_world
     = (Throw TypeError, MoreRuns.lonely_client, Runs.empty_world).
Proof.
  split; [reflexivity|]. split; [reflexivity|]. split; [reflexivity|].
  exact (proj2 (checkEnvironment_no_project linux_host MoreRuns.lonely_client
                  "0.20.2" Runs.empty_world)
           "/ws/.vscode/aclabarduino.json" eq_refl eq_refl).
Defined.

(** X11.  When the config file exists but no binary is installed for the
    release, [checkEnvironment] leaves the client without a binary and
    starts no subprocess.  For an empty release it resolves to
    [undefined].  For any other release it resolves to [undefined] when
    the client has no workspace folder, and throws a [TypeError] when it
    has one. *)
Theorem checkEnvironment_not_installed (host : Host) (self : ArduinoCli)
  (release : string) (w : World) (file : string) :
  truthy_string (configFile (runOptions self)) = Some file ->
  existsSync w file = true ->
  findExecutable host release w = None ->
  checkEnvironment host self release w
  = (if nonempty release then
       match workspaceFolder (runOptions self) with
       | Some _ => Throw TypeError
       | None => Return None
       end
     else Return None,
     with_runOptions self (set_arduinCliBin (runOptions self) None), w).
Proof.
  intros Hfile Hex Hfind. unfold checkEnvironment.
  rewrite Hfile, Hex, Hfind. cbn [negb].
  set (self' := with_runOptions self (set_arduinCliBin (runOptions self) None)).
  assert (Hbin : truthy_string (arduinCliBin (runOptions self')) = None)
    by reflexivity.
  assert (Hv : getCurrentVersion self' w = (Some (JSON.Str ""), w)).
  { unfold getCurrentVersion.
    rewrite (ExecuteCommand.unconfigured _ _ _ _ _ Hbin). reflexivity. }
  rewrite Hv. unfold strict_equal_string.
  destruct release as [|c r]; cbn [String.eqb nonempty negb].
  - unfold configInitFile.
    rewrite (ExecuteCommand.unconfigured _ _ _ _ _ Hbin).
    destruct (existsSync w
                (path_join host [path_dirname host file; "arduino-cli.yaml"]));
      reflexivity.
  - reflexivity.
Qed.

Lemma checkEnvironment_not_installed_witness :
  truthy_string (configFile (runOptions MoreRuns.blink_client))
  = Some "/ws/.vscode/aclabarduino.json"
  /\ existsSync MoreRuns.blink_world "/ws/.vscode/aclabarduino.json" = true
  /\ findExecutable linux_host "0.21.0" MoreRuns.blink_world = None
  /\ checkEnvironment linux_host MoreRuns.blink_client "0.21.0" MoreRuns.blink_world
     = (Throw TypeError,
        with_runOptions MoreRuns.blink_client
          (set_arduinCliBin (runOptions MoreRuns.blink_client) None),
        MoreRuns.blink_world)
  /\ checkEnvironment linux_host Runs.project_client "0.21.0" Runs.installed_world
     = (Return None,
        with_runOptions Runs.project_client
          (set_arduinCliBin (runOptions Runs.project_client) None),
        Runs.installed_world).
Proof.
  split; [reflexivity|]. split; [reflexivity|]. split; [reflexivity|]. split.
  - exact (checkEnvironment_not_installed linux_host MoreRuns.blink_client "0.21.0"
             MoreRuns.blink_world "/ws/.vscode/aclabarduino.json"
             eq_refl eq_refl eq_refl).
  - exact (checkEnvironment_not_installed linux_host Runs.project_client "0.21.0"
             Runs.installed_world Runs.project_file eq_refl eq_refl eq_refl).
Defined.



(** X13.  A client without a workspace folder never gets a diagnostic
    from [checkEnvironment], whatever is wrong with its config file or
    its binary. *)
Theorem checkEnvironment_silent_without_folder (host : Host) (self : ArduinoCli)
  (release : string) (w : World) (d : option ArduinoDiagnostic.Diagnostic) :
  workspaceFolder (runOptions self) = None ->
  fst (fst (checkEnvironment host self release w)) = Return d ->
  d = None.
Proof.
  intros Hfolder. unfold checkEnvironment, createProjectDiagnostic_for.
  rewrite Hfolder. cbn.
  repeat match goal with
         | |- context [match ?x with _ => _ end] => destruct x
         | |- context [let '(_, _) := ?x in _] => destruct x
         end; cbn; rewrite ?Hfolder; cbn; congruence.
Qed.

Lemma checkEnvironment_silent_without_folder_witness :
  workspaceFolder (runOptions Runs.project_client) = None
  /\ findExecutable linux_host "0.21.0" Runs.warm_world = None
  /\ fst (fst (checkEnvironment linux_host Runs.project_client "0.21.0"
                 Runs.warm_world)) = Return None
  /\ (forall d,
        fst (fst (checkEnvironment linux_host Runs.project_client "0.21.0"
                    Runs.warm_world)) = Return d ->
        d = None).
Proof.
  split; [reflexivity|]. split; [reflexivity|]. split; [reflexivity|].
  intros d.
  exact (checkEnvironment_silent_without_folder linux_host Runs.project_client
           "0.21.0" Runs.warm_world d eq_refl).
Defined.

(** ** Diagnostics *)

(** X14.  Every code of the two enums has a message of its own: none of
    them gets ["Unknown error"], and two codes with the same message are
    the same code.  Every other string gets ["Unknown error"]. *)
Theorem codeToMessage_known_and_distinct :
  (forall c, ArduinoDiagnostic.codeToMessage (ArduinoDiagnostic.Code_value c)
             <> "Unknown error")
  /\ (forall c1 c2,
        ArduinoDiagnostic.codeToMessage (ArduinoDiagnostic.Code_value c1)
        = ArduinoDiagnostic.codeToMessage (ArduinoDiagnostic.Code_value c2) ->
        c1 = c2)
  /\ (forall s,
        (forall c, ArduinoDiagnostic.Code_value c <> s) ->
        ArduinoDiagnostic.codeToMessage s = "Unknown error").
Proof.
  split; [|split].
  - intros [[]|[]]; discriminate.
  - intros [[]|[]] [[]|[]]; cbn; intros H; try reflexivity; discriminate.
  - intros s Hs. unfold ArduinoDiagnostic.codeToMessage.
    repeat match goal with
           | |- context [String.eqb s ?v] =>
               destruct (String.eqb_spec s v) as [E|_]
           end; try reflexivity; exfalso.
    + exact (Hs (ArduinoDiagnostic.OfError
                   ArduinoDiagnostic.E001_INVALID_CLI_VERSION) (eq_sym E)).
    + exact (Hs (ArduinoDiagnostic.OfError
                   ArduinoDiagnostic.E002_INVALID_BOARD) (eq_sym E)).
    + exact (Hs (ArduinoDiagnostic.OfError
                   ArduinoDiagnostic.E003_INVALID_PLATFORM_VERSION) (eq_sym E)).
    + exact (Hs (ArduinoDiagnostic.OfError
                   ArduinoDiagnostic.E004_INVALID_PORT) (eq_sym E)).
    + exact (Hs (ArduinoDiagnostic.OfInformation
                   ArduinoDiagnostic.I002_INVALID_BOARD_NAME_UPDATE) (eq_sym E)).
    + exact (Hs (ArduinoDiagnostic.OfInformation
                   ArduinoDiagnostic.I003_INVALID_BOARD_NAME_INSERT) (eq_sym E)).
Qed.

Lemma codeToMessage_known_and_distinct_witness :
  (forall c, ArduinoDiagnostic.Code_value c <> "E006")
  /\ ArduinoDiagnostic.codeToMessage "E006" = "Unknown error"
  /\ ArduinoDiagnostic.codeToSeverity "E006" = Some DiagnosticSeverity.Error.
Proof.
  assert (H : forall c, ArduinoDiagnostic.Code_value c <> "E006")
    by (intros [[]|[]]; discriminate).
  split; [exact H|]. split; [|reflexivity].
  exact (proj2 (proj2 codeToMessage_known_and_distinct) "E006" H).
Defined.

(** X15.  A diagnostic tells what it was created from: two diagnostics
    that are equal were created for the same code, the same document and
    a symbol with the same name, detail and range.  It is tagged as
    deprecated and has a documentation link exactly when its code is
    [E001_INVALID_CLI_VERSION], and its severity is [Error] exactly when
    its code belongs to the enum [Error]. *)
Theorem createDiagnostic_faithful
  (uri1 uri2 : string) (symbol1 symbol2 : ArduinoDiagnostic.DocumentSymbol)
  (c1 c2 : ArduinoDiagnostic.Code) :
  let d1 := ArduinoDiagnostic.createDiagnostic uri1 symbol1 c1 in
  (d1 = ArduinoDiagnostic.createDiagnostic uri2 symbol2 c2 ->
   c1 = c2 /\ uri1 = uri2
   /\ ArduinoDiagnostic.symbol_name symbol1 = ArduinoDiagnostic.symbol_name symbol2
   /\ ArduinoDiagnostic.symbol_detail symbol1
      = ArduinoDiagnostic.symbol_detail symbol2
   /\ ArduinoDiagnostic.symbol_range symbol1
      = ArduinoDiagnostic.symbol_range symbol2)
  /\ (ArduinoDiagnostic.tags d1 = Some [ArduinoDiagnostic.Deprecated]
      /\ ArduinoDiagnostic.codeDescription d1
         = Some {| ArduinoDiagnostic.href := "http://teste" |}
      /\ c1 = ArduinoDiagnostic.OfError ArduinoDiagnostic.E001_INVALID_CLI_VERSION
      \/ ArduinoDiagnostic.tags d1 = None
         /\ ArduinoDiagnostic.codeDescription d1 = None
         /\ c1 <> ArduinoDiagnostic.OfError
                    ArduinoDiagnostic.E001_INVALID_CLI_VERSION)
  /\ (ArduinoDiagnostic.severity d1 = Some DiagnosticSeverity.Error
      <-> exists e, c1 = ArduinoDiagnostic.OfError e).
Proof.
  cbn zeta. split; [|split].
  - unfold ArduinoDiagnostic.createDiagnostic. intros H.
    injection H as _ Hcode Hrange _ _ _ Huri Hname Hdetail.
    split; [|repeat split; assumption].
    destruct c1 as [[]|[]], c2 as [[]|[]]; cbn in Hcode;
      (reflexivity || discriminate).
  - destruct c1 as [[]|[]]; cbn;
      (left; repeat split; reflexivity) || (right; repeat split; discriminate).
  - destruct c1 as [[]|[]]; cbn; split;
      try (intros _; eexists; reflexivity); try discriminate;
      intros [e He]; discriminate.
Qed.

Lemma createDiagnostic_faithful_witness :
  ArduinoDiagnostic.createDiagnostic "file:///ws/.vscode/aclabarduino.json"
    board_symbol (ArduinoDiagnostic.OfError ArduinoDiagnostic.E002_INVALID_BOARD)
  = ArduinoDiagnostic.createDiagnostic "file:///ws/.vscode/aclabarduino.json"
      board_symbol (ArduinoDiagnostic.OfError ArduinoDiagnostic.E002_INVALID_BOARD)
  /\ ArduinoDiagnostic.message
       (ArduinoDiagnostic.createDiagnostic "file:///ws/.vscode/aclabarduino.json"
          board_symbol
          (ArduinoDiagnostic.OfError ArduinoDiagnostic.E002_INVALID_BOARD))
     = "Invalid board (FQBN)."
  /\ ArduinoDiagnostic.OfError ArduinoDiagnostic.E002_INVALID_BOARD
     = ArduinoDiagnostic.OfError ArduinoDiagnostic.E002_INVALID_BOARD.
Proof.
  split; [reflexivity|]. split; [reflexivity|].
  exact (proj1 (proj1 (createDiagnostic_faithful
                         "file:///ws/.vscode/aclabarduino.json"
                         "file:///ws/.vscode/aclabarduino.json"
                         board_symbol board_symbol
                         (ArduinoDiagnostic.OfError
                            ArduinoDiagnostic.E002_INVALID_BOARD)
                         (ArduinoDiagnostic.OfError
                            ArduinoDiagnostic.E002_INVALID_BOARD))
                  eq_refl)).
Defined.

(** ** Tree items, continued *)

Lemma split_without_separator (c : ascii) (s : string) :
  occurs c s = false -> split c s = [s].
Proof.
  induction s as [|d r IH]; cbn [occurs split]; [reflexivity|].
  intros H. apply orb_false_iff in H as [Hd Hr].
  rewrite Hd, (IH Hr). reflexivity.
Qed.

Lemma split_at_separator (c : ascii) (a b : string) :
  occurs c a = false -> split c (a +:+ String c b) = a :: split c b.
Proof.
  induction a as [|d a IH]; intros H.
  - change (split c (String c b) = "" :: split c b). cbn [split].
    rewrite Ascii.eqb_refl. reflexivity.
  - cbn [occurs] in H. apply orb_false_iff in H as [Hd Ha].
    change (split c (String d (a +:+ String c b)) = String d a :: split c b).
    cbn [split]. rewrite Hd, (IH Ha). reflexivity.
Qed.

(** Joining pieces that are free of the separator and splitting the
    result gives the pieces back. *)
Lemma split_concat (c : ascii) (pieces : list string) :
  pieces <> [] ->
  Forall (fun p => occurs c p = false) pieces ->
  split c (String.concat (String c "") pieces) = pieces.
Proof.
  induction pieces as [|p [|q rest] IH]; intros Hne Hfree; [done| |].
  - cbn. apply split_without_separator. by inversion Hfree.
  - inversion Hfree as [|? ? Hp Hrest]; subst.
    change (String.concat (String c "") (p :: q :: rest))
      with (p +:+ String c (String.concat (String c "") (q :: rest))).
    rewrite (split_at_separator c p _ Hp), IH; [reflexivity | done | exact Hrest].
Qed.

(** X16.  The command of a tree item tells the status of its entry:
    [openConfiguration] for [ok], [initialize] for [candidate] and
    [checkProject] for [error], with the titles Open, Initialize and
    Check; and it always carries the project of the entry as its only
    argument. *)
Theorem ArduinoTreeItem_command (dirname : string)
  (path_resolve : list string -> string)
  (status_text : Explorer.ArduinoEntryStatus -> string)
  (entry : Explorer.IArduinoEntry) :
  let command :=
    Explorer.command
      (Explorer.ArduinoTreeItem dirname path_resolve status_text entry) in
  Explorer.arguments command = [Explorer.project entry]
  /\ (Explorer.command_id command = "arduinoExplorer.openConfiguration"
      <-> Explorer.status entry = Explorer.ok)
  /\ (Explorer.command_id command = "arduinoExplorer.initialize"
      <-> Explorer.status entry = Explorer.candidate)
  /\ (Explorer.command_id command = "arduinoExplorer.checkProject"
      <-> Explorer.status entry = Explorer.error)
  /\ Explorer.title command
     = match Explorer.status entry with
       | Explorer.ok => "Open"
       | Explorer.candidate => "Initialize"
       | Explorer.error => "Check"
       end.
Proof.
  cbn. destruct (Explorer.status entry); cbn;
    repeat split; try reflexivity; try discriminate; intros; discriminate.
Qed.

(** X17.  The tooltip of an entry in error lists the messages of its
    errors, one per line: when no message holds a line feed, splitting
    the tooltip at line feeds gives the messages back, in their order.
    Without any error the tooltip is empty.  An entry that is not in
    error shows its board name and the path of its folder instead. *)
Theorem ArduinoTreeItem_tooltip (dirname : string)
  (path_resolve : list string -> string)
  (status_text : Explorer.ArduinoEntryStatus -> string)
  (entry : Explorer.IArduinoEntry) :
  Forall (fun d => occurs "010"%char (Explorer.message d) = false)
    (Explorer.errors entry) ->
  let tooltip :=
    Explorer.tooltip
      (Explorer.ArduinoTreeItem dirname path_resolve status_text entry) in
  match Explorer.status entry with
  | Explorer.error =>
      split "010"%char tooltip
      = match Explorer.errors entry with
        | [] => [""]
        | _ => Explorer.message <$> Explorer.errors entry
        end
      /\ (Explorer.errors entry = [] -> tooltip = "")
  | _ =>
      tooltip = Explorer.board_name (Explorer.model entry) +:+ " <"
                  +:+ Explorer.fsPath (Explorer.folder_uri (Explorer.project entry))
                  +:+ ">"
  end.
Proof.
  intros Hfree. cbn. destruct (Explorer.status entry); try reflexivity.
  split.
  - destruct (Explorer.errors entry) as [|d ds] eqn:E; [reflexivity|].
    apply split_concat; [discriminate|].
    apply Forall_fmap. exact Hfree.
  - intros ->. reflexivity.
Qed.

Lemma ArduinoTreeItem_tooltip_witness :
  Forall (fun d => occurs "010"%char (Explorer.message d) = false)
    (Explorer.errors failed_entry)
  /\ split "010"%char
       (Explorer.tooltip
          (Explorer.ArduinoTreeItem "/ext/out/explorer" (String.concat "/")
             (fun _ => "2") failed_entry))
     = ["Invalid board (FQBN)."; "Port required."].
Proof.
  assert (H : Forall (fun d => occurs "010"%char (Explorer.message d) = false)
                (Explorer.errors failed_entry)) by (repeat constructor).
  split; [exact H|].
  exact (proj1 (ArduinoTreeItem_tooltip "/ext/out/explorer" (String.concat "/")
                  (fun _ => "2") failed_entry H)).
Defined.

(** X18.  The label of a tree item is the alias of the entry whenever
    that is a non-empty string, and the name of the project folder
    whenever the entry has no alias or an empty one; so an entry whose
    folder has a name never shows an empty label. *)
Theorem ArduinoTreeItem_label (dirname : string)
  (path_resolve : list string -> string)
  (status_text : Explorer.ArduinoEntryStatus -> string)
  (entry : Explorer.IArduinoEntry) :
  let label :=
    Explorer.label
      (Explorer.ArduinoTreeItem dirname path_resolve status_text entry) in
  (forall given,
      Explorer.alias (Explorer.model entry) = Some given -> given <> "" ->
      label = given)
  /\ (Explorer.alias (Explorer.model entry) = None
      \/ Explorer.alias (Explorer.model entry) = Some "" ->
      label = Explorer.folder_name (Explorer.project entry))
  /\ (Explorer.folder_name (Explorer.project entry) <> "" -> label <> "").
Proof.
  cbn. split; [|split].
  - intros given -> Hgiven. cbn.
    apply ExecuteCommand.nonempty_true in Hgiven. by rewrite Hgiven.
  - intros [-> | ->]; reflexivity.
  - intros Hname.
    destruct (Explorer.alias (Explorer.model entry)) as [a|]; cbn; [|exact Hname].
    destruct (nonempty a) eqn:Ha; [by apply ExecuteCommand.nonempty_true | exact Hname].
Qed.

Lemma ArduinoTreeItem_label_witness :
  Explorer.alias (Explorer.model named_entry) = Some "Porch light"
  /\ Explorer.label
       (Explorer.ArduinoTreeItem "/ext/out/explorer" (String.concat "/")
          (fun _ => "0") named_entry)
     = "Porch light"
  /\ Explorer.alias (Explorer.model failed_entry) = Some ""
  /\ Explorer.label
       (Explorer.ArduinoTreeItem "/ext/out/explorer" (String.concat "/")
          (fun _ => "2") failed_entry)
     = "blink"
  /\ Explorer.label
       (Explorer.ArduinoTreeItem "/ext/out/explorer" (String.concat "/")
          (fun _ => "2") failed_entry)
     <> "".
Proof.
  assert (Hgiven : "Porch light" <> "") by discriminate.
  assert (Hname : Explorer.folder_name (Explorer.project failed_entry) <> "")
    by discriminate.
  split; [reflexivity|]. split.
  - exact (proj1 (ArduinoTreeItem_label "/ext/out/explorer" (String.concat "/")
                    (fun _ => "0") named_entry) "Porch light" eq_refl Hgiven).
  - split; [reflexivity|]. split.
    + exact (proj1 (proj2 (ArduinoTreeItem_label "/ext/out/explorer"
                             (String.concat "/") (fun _ => "2") failed_entry))
               (or_intror eq_refl)).
    + exact (proj2 (proj2 (ArduinoTreeItem_label "/ext/out/explorer"
                             (String.concat "/") (fun _ => "2") failed_entry))
               Hname).
Defined.

(** ** The text format *)

Lemma split_nonempty (c : ascii) (s : string) : split c s <> [].
Proof.
  destruct s as [|d r]; cbn [split]; [discriminate|].
  destruct (Ascii.eqb d c); [discriminate|].
  destruct (split c r); discriminate.
Qed.

Lemma split_pieces_free (c : ascii) (s : string) :
  Forall (fun p => occurs c p = false) (split c s).
Proof.
  induction s as [|d r IH]; cbn [split]; [repeat constructor|].
  destruct (Ascii.eqb d c) eqn:Hd; [constructor; [reflexivity | exact IH]|].
  destruct (split c r) as [|piece rest]; [repeat constructor; cbn; by rewrite Hd|].
  inversion IH as [|? ? Hpiece Hrest]; subst.
  constructor; [cbn; by rewrite Hd, Hpiece | exact Hrest].
Qed.

Lemma concat_split (c : ascii) (s : string) :
  String.concat (String c "") (split c s) = s.
Proof.
  induction s as [|d r IH]; [reflexivity|]. cbn [split].
  pose proof (split_nonempty c r) as Hne.
  destruct (Ascii.eqb d c) eqn:Hd.
  - apply Ascii.eqb_eq in Hd. subst d.
    destruct (split c r) as [|piece rest]; [done|].
    change (String.concat (String c "") ("" :: piece :: rest))
      with (String c (String.concat (String c "") (piece :: rest))).
    by rewrite IH.
  - destruct (split c r) as [|piece [|q rest]]; [done| |].
    + cbn in *. by rewrite IH.
    + change (String.concat (String c "") (String d piece :: q :: rest))
        with (String d (String.concat (String c "") (piece :: q :: rest))).
      by rewrite IH.
Qed.

(** X19.  Nothing of stdout is lost in a result of the text format: when
    a binary is known and stdout is not empty, [data] is an object whose
    member [text] is a non-empty list of strings, none of which holds a
    carriage return, and which joined by carriage returns give stdout
    back. *)
Theorem text_data_round_trip (self : ArduinoCli) (commandCli : string)
  (args : list string) (w : World) (bin : string) (out : string) :
  truthy_string (arduinCliBin (runOptions self)) = Some bin ->
  stdout (next_output w bin (command_line self commandCli args FORMAT_TEXT))
  = Some out ->
  out <> "" ->
  exists r pieces,
    fst (executeCommand self commandCli args FORMAT_TEXT w) = Return r
    /\ data r = Some (JSON.Object [("text", JSON.Array (JSON.Str <$> pieces))])
    /\ pieces <> []
    /\ Forall (fun p => occurs "013"%char p = false) pieces
    /\ String.concat (String "013"%char "") pieces = out.
Proof.
  intros H Hstdout Hout. rewrite (text_command_returns _ _ _ _ _ H). cbn [fst].
  destruct (next_output w bin (command_line self commandCli args FORMAT_TEXT))
    as [code out' err|]; [|discriminate].
  cbn [stdout] in Hstdout. injection Hstdout as ->.
  cbn [text_outcome]. unfold text_result.
  apply ExecuteCommand.nonempty_true in Hout. rewrite Hout.
  eexists _, (split "013"%char out). split; [reflexivity|].
  split; [reflexivity|]. split; [apply split_nonempty|].
  split; [apply split_pieces_free | apply concat_split].
Qed.

Lemma text_data_round_trip_witness :
  truthy_string (arduinCliBin (runOptions Runs.project_client)) = Some Runs.cli_path
  /\ stdout (next_output Runs.two_lines_world Runs.cli_path
               (command_line Runs.project_client "core" ["update-index"]
                  FORMAT_TEXT))
     = Some ("a" +:+ Runs.LF +:+ "b")
  /\ "a" +:+ Runs.LF +:+ "b" <> ""
  /\ exists r pieces,
       fst (executeCommand Runs.project_client "core" ["update-index"] FORMAT_TEXT
              Runs.two_lines_world) = Return r
       /\ data r = Some (JSON.Object [("text", JSON.Array (JSON.Str <$> pieces))])
       /\ pieces <> []
       /\ Forall (fun p => occurs "013"%char p = false) pieces
       /\ String.concat (String "013"%char "") pieces = "a" +:+ Runs.LF +:+ "b".
Proof.
  assert (Hout : "a" +:+ Runs.LF +:+ "b" <> "") by discriminate.
  split; [reflexivity|]. split; [reflexivity|]. split; [exact Hout|].
  exact (text_data_round_trip Runs.project_client "core" ["update-index"]
           Runs.two_lines_world Runs.cli_path _ eq_refl eq_refl Hout).
Defined.

(** X20.  The commands that ask for the text format,
    [coreUpdateIndex], [configAdd3rdPartyUrl], [configRemove3thPartyUrl]
    and [coreInstall], never throw a [SyntaxError]: whatever the
    subprocess prints, they return a result, whose [status] tells
    whether stderr was empty.  They throw in one case only, a
    [TypeError] when the binary cannot be started.  With a binary each
    starts exactly one subprocess, and without one none. *)
Theorem text_commands_throw_only_unstarted (self : ArduinoCli) (w : World) :
  let run (commandCli : string) (args : list string) (w : World) :=
    match truthy_string (arduinCliBin (runOptions self)) with
    | Some bin =>
        (text_outcome
           (next_output w bin (command_line self commandCli args FORMAT_TEXT)),
         snd (spawnSync bin (command_line self commandCli args FORMAT_TEXT) w))
    | None => (Return not_informed, w)
    end in
  coreUpdateIndex self w = run "core" ["update-index"] (ACLCache.clear w)
  /\ (forall url,
        configAdd3rdPartyUrl self url w
        = run "config" ["add"; "board_manager.additional_urls"; url] w)
  /\ (forall url,
        configRemove3thPartyUrl self url w
        = run "config" ["remove"; "board_manager.additional_urls"; url] w)
  /\ (forall platform version,
        coreInstall self platform version w
        = run "core" ["install"; platform +:+ "@" +:+ version] w)
  /\ (forall commandCli args e,
        fst (run commandCli args w) = Throw e ->
        e = TypeError
        /\ exists bin,
             truthy_string (arduinCliBin (runOptions self)) = Some bin
             /\ next_output w bin (command_line self commandCli args FORMAT_TEXT)
                = NotStarted)
  /\ (forall commandCli args bin code out err,
        truthy_string (arduinCliBin (runOptions self)) = Some bin ->
        next_output w bin (command_line self commandCli args FORMAT_TEXT)
        = Exited code out err ->
        exists r,
          fst (run commandCli args w) = Return r
          /\ (status r = true <-> err = "")
          /\ reason r = err
          /\ spawned (snd (run commandCli args w))
             = spawned w
               ++ [(bin, command_line self commandCli args FORMAT_TEXT)]).
Proof.
  cbn zeta.
  unfold coreUpdateIndex, configAdd3rdPartyUrl, configRemove3thPartyUrl, coreInstall.
  destruct (truthy_string (arduinCliBin (runOptions self))) as [bin|] eqn:H.
  - split; [exact (text_command_returns _ _ _ _ _ H)|].
    split; [intros; exact (text_command_returns _ _ _ _ _ H)|].
    split; [intros; exact (text_command_returns _ _ _ _ _ H)|].
    split; [intros; exact (text_command_returns _ _ _ _ _ H)|].
    split.
    + intros commandCli args e. cbn [fst].
      destruct (next_output w bin (command_line self commandCli args FORMAT_TEXT))
        eqn:Hcommand; cbn [text_outcome]; [discriminate|].
      intros [= <-]. split; [reflexivity|]. exists bin.
      split; [reflexivity | exact Hcommand].
    + intros commandCli args bin' code out err [= <-] Hcommand. cbn [fst snd].
      rewrite Hcommand. cbn [text_outcome]. eexists. split; [reflexivity|].
      cbn [text_result status reason]. rewrite negb_true_iff.
      split; [apply ExecuteCommand.nonempty_false|]. split; reflexivity.
  - split; [exact (ExecuteCommand.unconfigured _ _ _ _ _ H)|].
    split; [intros; exact (ExecuteCommand.unconfigured _ _ _ _ _ H)|].
    split; [intros; exact (ExecuteCommand.unconfigured _ _ _ _ _ H)|].
    split; [intros; exact (ExecuteCommand.unconfigured _ _ _ _ _ H)|].
    split; [intros ? ? ?; discriminate | intros; discriminate].
Qed.

Lemma text_commands_throw_only_unstarted_witness :
  fst (coreInstall Runs.project_client "arduino:avr" "1.8.3" Runs.stuck_world)
  = Throw TypeError
  /\ fst (coreInstall Runs.project_client "arduino:avr" "1.8.3"
            Runs.chatty_world)
     = Return (text_result "No platforms installed." "")
  /\ (exists r,
        fst (coreInstall Runs.project_client "arduino:avr" "1.8.3"
               Runs.warning_world) = Return r
        /\ status r = false /\ reason r = "deprecated flag")
  /\ spawned (snd (coreInstall Runs.project_client "arduino:avr" "1.8.3"
                     Runs.warning_world))
     = [(Runs.cli_path,
         ["core"; "install"; "arduino:avr@1.8.3"; "--config-file";
          "/ws/.vscode/arduino-cli.yaml"; "--format"; "text"])].
Proof.
  destruct (text_commands_throw_only_unstarted Runs.project_client
              Runs.warning_world)
    as (_ & _ & _ & Hinstall & _ & Hreturns).
  destruct (Hreturns "core" ["install"; "arduino:avr@1.8.3"] Runs.cli_path
              (Some 0%Z) "[]" "deprecated flag" eq_refl eq_refl)
    as (r & Hr & Hstatus & Hreason & Hspawned).
  split; [reflexivity|]. split; [reflexivity|]. split.
  - exists r. split; [exact Hr|]. split; [|exact Hreason].
    destruct (status r); [|reflexivity].
    discriminate (proj1 Hstatus eq_refl).
  - exact Hspawned.
Defined.
